(** * Over-the-air update engine: version store, comparator, checker,
      appliers and coordinator

    A shallow embedding of [src/composables/updater.ts],
    [src/composables/web_assets_updater.ts] and
    [src/composables/apk_updater.ts].

    - The browser's [localStorage] is a finite map from keys to strings;
      its operations do not throw.
    - The collaborators (remote endpoint, bundle delivery, HTTP, file
      system, installer) are an environment that answers from the
      history of effects, so that the same call may succeed at one time
      and fail at another.
    - Every [async] method is a computation in a state-and-exception
      monad over the [World]; a method runs to its end before the next
      event is handled, and events (interval firings, clicks on dialogs)
      are handled one after the other.
    - Dialogs stay on screen with their handlers until the user clicks.
    - [console.error] is recorded, [console.log] is not.
    - A string is a sequence of code units below 256.  [Number] reads a
      piece of a version as the engine does, signs, exponents, radix
      prefixes, white space and [Infinity] included, and rounds it to
      the nearest double. *)

From Stdlib Require Import ZArith Ascii String List Bool Lia.
From stdpp Require Import base option list gmap strings.

Local Open Scope string_scope.
Local Open Scope Z_scope.

(** ** JavaScript values used by the comparator *)

Module Js.

(** A JS number: [NaN], or a double (see Doubles below for the integer
    that stands for it). *)
Inductive num : Type :=
| NaN
| Num (z : Z).

(** An array slot: [None] is [undefined] (index past the end). *)
Definition slot : Type := option num.

(** ToNumber on an array slot: [undefined] converts to [NaN]. *)
Definition toNumber (v : slot) : num :=
  match v with
  | Some n => n
  | None => NaN
  end.

(** [a > b]: false as soon as one side is [NaN]. *)
Definition gt (a b : slot) : bool :=
  match toNumber a, toNumber b with
  | Num x, Num y => y <? x
  | _, _ => false
  end.

(** [a < b]: false as soon as one side is [NaN]. *)
Definition lt (a b : slot) : bool :=
  match toNumber a, toNumber b with
  | Num x, Num y => x <? y
  | _, _ => false
  end.

(** [s.split(sep)] for a one-character separator: the pieces between the
    separators, empty pieces included; the empty string gives one empty
    piece. *)
Fixpoint split (sep : ascii) (s : string) : list string :=
  match s with
  | EmptyString => [EmptyString]
  | String c rest =>
      if Ascii.eqb c sep then EmptyString :: split sep rest
      else match split sep rest with
           | [] => [String c EmptyString]
           | piece :: pieces => String c piece :: pieces
           end
  end.

(** The value of a decimal digit. *)
Definition digit (c : ascii) : option Z :=
  let n := Z.of_nat (nat_of_ascii c) in
  if (48 <=? n) && (n <=? 57) then Some (n - 48) else None.

(** *** Doubles

    A [Num z] is the double [z * 2^-1074].  Every finite double is a
    whole multiple of [2^-1074], the smallest positive double, so a finite
    double is the integer that counts it in these units: the double [1]
    is [Num one], the largest finite double is
    [Num ((2^53 - 1) * 2^2045)], and [-0] and [+0] are both [Num 0], as
    they are equal for [<] and [>].  [+Infinity] and [-Infinity] are
    [Num infinity] and [Num (- infinity)], where [infinity] is the power
    of two just above every finite double.  So [<] and [>] on doubles are
    [<] and [>] on these integers. *)

Definition one : Z := 2 ^ 1074.

Definition infinity : Z := 2 ^ 2098.

(** The double of an integer that a double holds exactly (any integer up
    to [2^53] in absolute value, among others). *)
Definition whole (n : Z) : num := Num (n * one).

(** The double nearest to [p / q] units ([0 <= p], [0 < q]), ties going to
    the even significand: below [2^53] units the doubles are the whole
    numbers of units (subnormals and the first binade), above they are
    the numbers with 53 significant bits; what rounds to [2^2098] units
    or more is [Infinity]. *)
Definition nearest (p q : Z) : Z :=
  let n := p / q in
  let s := if n <? 2 ^ 53 then 0 else Z.log2 n - 52 in
  let d := q * 2 ^ s in
  let m := p / d in
  let r := p - m * d in
  let m' := if (d <? 2 * r) || ((d =? 2 * r) && Z.odd m) then m + 1 else m in
  let u := m' * 2 ^ s in
  if infinity <=? u then infinity else u.

(** The double nearest to [m * 10^k], in units. *)
Definition scientific (m k : Z) : Z :=
  if 0 <=? k then nearest (m * 10 ^ k * one) 1
  else nearest (m * one) (10 ^ (- k)).

(** *** [Number(s)] on a string

    A string here is a JS string whose code units are all below 256, one
    [ascii] per code unit.  [Number] trims the white space and line
    terminators (of which TAB, LF, VT, FF, CR, SP and NBSP are below 256);
    what is left is empty, which reads as [0], or a literal: [0x], [0o]
    or [0b] followed by digits of that radix, or an optional sign followed
    by [Infinity] or by decimal digits with an optional point and an
    optional exponent.  Anything else is [NaN].  The value of the literal
    is rounded to the nearest double, ties to even, however many digits
    it has. *)

(** The value of [c] as a digit of the radix, for radix 2, 8 or 16. *)
Definition digitIn (radix : Z) (c : ascii) : option Z :=
  let n := Z.of_nat (nat_of_ascii c) in
  let v := if (48 <=? n) && (n <=? 57) then n - 48
           else if (97 <=? n) && (n <=? 102) then n - 87
           else if (65 <=? n) && (n <=? 70) then n - 55
           else radix in
  if v <? radix then Some v else None.

(** The longest run of digits at the head of [cs]: the number it writes
    after the digits already in [acc], how many digits it has after the
    [count] already seen, and what follows it. *)
Fixpoint digitRun (value : ascii -> option Z) (radix acc count : Z)
    (cs : list ascii) : Z * Z * list ascii :=
  match cs with
  | c :: rest =>
      match value c with
      | Some d => digitRun value radix (radix * acc + d) (count + 1) rest
      | None => (acc, count, cs)
      end
  | [] => (acc, count, [])
  end.

Definition isSpace (c : ascii) : bool :=
  let n := Z.of_nat (nat_of_ascii c) in
  ((9 <=? n) && (n <=? 13)) || (n =? 32) || (n =? 160).

Fixpoint dropSpaces (cs : list ascii) : list ascii :=
  match cs with
  | c :: rest => if isSpace c then dropSpaces rest else cs
  | [] => []
  end.

Definition trim (cs : list ascii) : list ascii :=
  rev (dropSpaces (rev (dropSpaces cs))).

(** An optional sign: whether it is [-], and what follows. *)
Definition signed (cs : list ascii) : bool * list ascii :=
  match cs with
  | c :: rest =>
      if Ascii.eqb c "+" then (false, rest)
      else if Ascii.eqb c "-" then (true, rest)
      else (false, cs)
  | [] => (false, [])
  end.

(** Nothing, or [e] or [E], an optional sign and at least one digit, up to
    the end. *)
Definition exponentPart (cs : list ascii) : option Z :=
  match cs with
  | [] => Some 0
  | c :: rest =>
      if Ascii.eqb c "e" || Ascii.eqb c "E" then
        let '(negative, rest') := signed rest in
        let '(e, count, after) := digitRun digit 10 0 0 rest' in
        match after with
        | [] => if 0 <? count then Some (if negative then - e else e) else None
        | _ :: _ => None
        end
      else None
  end.

(** Digits, an optional point and more digits (at least one digit in
    all), and an optional exponent. *)
Definition unsignedDecimal (cs : list ascii) : num :=
  let '(integral, count1, after1) := digitRun digit 10 0 0 cs in
  let '(mantissa, count2, after2) :=
    match after1 with
    | c :: rest =>
        if Ascii.eqb c "." then digitRun digit 10 integral 0 rest
        else (integral, 0, after1)
    | [] => (integral, 0, after1)
    end in
  if count1 + count2 =? 0 then NaN
  else match exponentPart after2 with
       | Some e => Num (scientific mantissa (e - count2))
       | None => NaN
       end.

Definition decimal (cs : list ascii) : num :=
  let '(negative, rest) := signed cs in
  let v := if String.eqb (string_of_list_ascii rest) "Infinity"
           then Num infinity else unsignedDecimal rest in
  match v with
  | Num z => Num (if negative then - z else z)
  | NaN => NaN
  end.

Definition radixOf (c : ascii) : option Z :=
  if Ascii.eqb c "x" || Ascii.eqb c "X" then Some 16
  else if Ascii.eqb c "o" || Ascii.eqb c "O" then Some 8
  else if Ascii.eqb c "b" || Ascii.eqb c "B" then Some 2
  else None.

(** [0x], [0o] or [0b] and at least one digit of the radix, up to the
    end; [None] when the string does not start as such a literal. *)
Definition nonDecimal (cs : list ascii) : option num :=
  match cs with
  | zero :: c :: rest =>
      if Ascii.eqb zero "0" then
        match radixOf c with
        | Some radix =>
            let '(v, count, after) := digitRun (digitIn radix) radix 0 0 rest in
            match after with
            | [] => if 0 <? count then Some (Num (nearest (v * one) 1))
                    else Some NaN
            | _ :: _ => Some NaN
            end
        | None => None
        end
      else None
  | _ => None
  end.

Definition Number (s : string) : num :=
  match trim (list_ascii_of_string s) with
  | [] => Num 0
  | cs => match nonDecimal cs with
          | Some v => v
          | None => decimal cs
          end
  end.

(** [!s] on a string: only the empty string is falsy. *)
Definition falsy (s : string) : bool :=
  match s with
  | EmptyString => true
  | String _ _ => false
  end.

End Js.

(** ** VersionComparator: [Updater.isNewerVersion] *)

(** [v.split('.').map(Number)] *)
Definition versionParts (v : string) : list Js.num :=
  map Js.Number (Js.split "." v).

(** The loop [for (let i = 0; i < 3; i++)], with [n] iterations left. *)
Fixpoint compareFrom (n : nat) (i : nat) (remoteParts localParts : list Js.num)
  : bool :=
  match n with
  | O => false
  | S n' =>
      if Js.gt (remoteParts !! i) (localParts !! i) then true
      else if Js.lt (remoteParts !! i) (localParts !! i) then false
      else compareFrom n' (S i) remoteParts localParts
  end.

Definition isNewerVersion (remote local : string) : bool :=
  if Js.falsy remote || Js.falsy local then false
  else compareFrom 3 0 (versionParts remote) (versionParts local).

(** The number at position [i] of a version string, in units of
    [2^-1074], when there is a piece at that position and it reads as a
    number. *)
Definition component (v : string) (i : nat) : option Z :=
  match versionParts v !! i with
  | Some (Js.Num z) => Some z
  | _ => None
  end.

(** The whole number a run of decimal digits writes, exactly: the reading
    of a component in the specification's words. *)
Definition wholeOf (piece : string) : option Z :=
  let '(n, _, after) :=
    Js.digitRun Js.digit 10 0 0 (list_ascii_of_string piece) in
  match after with
  | [] => Some n
  | _ :: _ => None
  end.

(** The comparator as the specification words it: three integer
    components, a missing one counting as [0], compared in order. *)
Definition componentOrZero (v : string) (i : nat) : Z :=
  match Js.split "." v !! i with
  | Some piece => default 0 (wholeOf piece)
  | None => 0
  end.

Fixpoint specCompareFrom (n : nat) (i : nat) (remote local : string) : bool :=
  match n with
  | O => false
  | S n' =>
      if componentOrZero local i <? componentOrZero remote i then true
      else if componentOrZero remote i <? componentOrZero local i then false
      else specCompareFrom n' (S i) remote local
  end.

Definition isNewerSpec (remote local : string) : bool :=
  specCompareFrom 3 0 remote local.

(** A dotted triplet: exactly three pieces, each a non-empty run of
    decimal digits. *)
Definition allDigits (s : string) : bool :=
  negb (Js.falsy s) &&
  forallb (fun c => match Js.digit c with Some _ => true | None => false end)
          (list_ascii_of_string s).

Definition validTriplet (v : string) : bool :=
  match Js.split "." v with
  | [a; b; c] => allDigits a && allDigits b && allDigits c
  | _ => false
  end.

Definition isDigit (c : ascii) : bool :=
  match Js.digit c with Some _ => true | None => false end.

(** Every piece of the version writes a whole number of at most [2^53],
    the range in which a double holds every whole number exactly. *)
Definition withinPrecision (v : string) : bool :=
  forallb (fun piece => match wholeOf piece with
                        | Some n => n <=? 2 ^ 53
                        | None => false
                        end)
          (Js.split "." v).

(** ** Data model *)

(** [UpdateInfo] of [src/models/updater.model.ts]. *)
Record UpdateInfo : Type := {
  version : string;
  notes : option string;
  url : string;
  sessionKey : string;
  updateType : string;
  web_assets_url : string
}.

(** The body of the remote answer, [response.data]: falsy, one descriptor,
    or an array of descriptors. *)
Inductive responseData : Type :=
| NoData
| OneObject (d : UpdateInfo)
| AnArray (ds : list UpdateInfo).

(** What [CapacitorUpdater.download] resolves to; the applier reads its
    [version]. *)
Record BundleInfo : Type := {
  bundle_id : string;
  bundle_version : string
}.

(** What [CapacitorHttp.get] resolves to. *)
Record HttpResponse : Type := {
  status : Z;
  data : option string
}.

(** The callbacks the code attaches to its dialogs, one constructor per
    closure in the source. *)
Inductive handler : Type :=
| UpdateAccepted (updateInfo : UpdateInfo)   (* Updater.promptForUpdate, onOk *)
| UpdateCancelled                            (* Updater.promptForUpdate, onCancel *)
| Reload                                     (* window.location.reload() *)
| OfferRetry (uri : string) (updateInfo : UpdateInfo)
                                             (* launchInstaller's dialog, onOk *)
| LaunchInstaller (uri : string) (updateInfo : UpdateInfo).
                                             (* offerRetryInstallation, onOk *)

(** The options given to [Dialog.create] and the chained handlers. *)
Record dialog : Type := {
  title : string;
  message : string;
  ok : string;
  cancel : bool;
  persistent : bool;
  onOk : option handler;
  onCancel : option handler
}.

(** Everything the engine does to the outside, in the order it happens. *)
Inductive effect : Type :=
| EFetch                                     (* updaterService.fetchUpdateInfo() *)
| ENotifyAppReady                            (* CapacitorUpdater.notifyAppReady() *)
| EDownload (v u : string)                   (* CapacitorUpdater.download *)
| ESet (b : BundleInfo)                      (* CapacitorUpdater.set *)
| EReset                                     (* CapacitorUpdater.reset *)
| EHttpGet (u : string)                      (* CapacitorHttp.get *)
| EWriteFile (path : string)                 (* Filesystem.writeFile *)
| EGetUri (path : string)                    (* Filesystem.getUri *)
| EOpen (filePath contentType : string)      (* FileOpener.open *)
| ESetItem (key value : string)              (* localStorage.setItem *)
| ELoadingShow (msg : string)                (* Loading.show *)
| ELoadingHide                               (* Loading.hide *)
| EDialog (d : dialog)                       (* Dialog.create *)
| EConsoleError (label : string)             (* console.error *)
| ESetInterval (ms : Z)                      (* setInterval *)
| EReload.                                   (* window.location.reload() *)

(** The collaborators.  Each answers from the effects so far and its
    arguments; [None] or [false] is a rejected promise. *)
Record Env : Type := {
  platform : string;
  APP_VERSION : option string;
  updaterService_fetchUpdateInfo : list effect -> option responseData;
  CapacitorUpdater_notifyAppReady : list effect -> bool;
  CapacitorUpdater_download : list effect -> string -> string -> option BundleInfo;
  CapacitorUpdater_set : list effect -> BundleInfo -> bool;
  CapacitorUpdater_reset : list effect -> bool;
  CapacitorHttp_get : list effect -> string -> option HttpResponse;
  Filesystem_writeFile : list effect -> string -> bool;
  Filesystem_getUri : list effect -> string -> option string;
  FileOpener_open : list effect -> string -> string -> bool
}.

(** The state of the running application. *)
Record World : Type := {
  storage : gmap string string;      (* localStorage *)
  previousVersion : option string;   (* assetsUpdater.previousVersion *)
  dialogs : list dialog;             (* dialogs on screen, oldest first *)
  intervals : list Z;                (* intervals armed by setInterval *)
  log : list effect                  (* effects so far, oldest first *)
}.

(** ** The monad of [async] methods: state and exceptions *)

Inductive result (A : Type) : Type :=
| Return (a : A)
| Throw (e : string).
Arguments Return {A} a.
Arguments Throw {A} e.

Definition M (A : Type) : Type := World -> result A * World.

#[global] Instance M_ret : MRet M := fun A a w => (Return a, w).

#[global] Instance M_bind : MBind M := fun A B f m w =>
  match m w with
  | (Return a, w') => f a w'
  | (Throw e, w') => (Throw e, w')
  end.

#[global] Instance M_throw : MThrow string M := fun A e w => (Throw e, w).

(** [try { body } catch (error) { handle(error) }] *)
Definition try_catch {A : Type} (body : M A) (handle : string -> M A) : M A :=
  fun w =>
    match body w with
    | (Return a, w') => (Return a, w')
    | (Throw e, w') => handle e w'
    end.

Definition record (e : effect) (w : World) : World :=
  {| storage := storage w; previousVersion := previousVersion w;
     dialogs := dialogs w; intervals := intervals w; log := log w ++ [e] |}.

(** An effect with no answer. *)
Definition emit (e : effect) : M unit := fun w => (Return tt, record e w).

(** A call to a collaborator that answers [answer] from the history, or
    rejects with [msg]. *)
Definition call {A : Type} (e : effect) (answer : list effect -> option A)
    (msg : string) : M A :=
  fun w =>
    match answer (log w) with
    | Some a => (Return a, record e w)
    | None => (Throw msg, record e w)
    end.

Definition succeeds (b : bool) : option unit := if b then Some tt else None.

Module localStorage.

Definition getItem (key : string) : M (option string) :=
  fun w => (Return (storage w !! key), w).

Definition setItem (key value : string) : M unit :=
  fun w =>
    (Return tt,
     {| storage := <[key := value]> (storage w);
        previousVersion := previousVersion w;
        dialogs := dialogs w; intervals := intervals w;
        log := log w ++ [ESetItem key value] |}).

End localStorage.

(** [!localStorage.getItem(key)]: no item, or the empty string. *)
Definition missing (v : option string) : bool :=
  match v with
  | Some s => Js.falsy s
  | None => true
  end.

Module Dialog.

Definition create (d : dialog) : M unit :=
  fun w =>
    (Return tt,
     {| storage := storage w; previousVersion := previousVersion w;
        dialogs := dialogs w ++ [d]; intervals := intervals w;
        log := log w ++ [EDialog d] |}).

End Dialog.

Module Loading.
Definition show (msg : string) : M unit := emit (ELoadingShow msg).
Definition hide : M unit := emit ELoadingHide.
End Loading.

Module console.
Definition error (label : string) : M unit := emit (EConsoleError label).
End console.

Definition setInterval (ms : Z) : M unit :=
  fun w =>
    (Return tt,
     {| storage := storage w; previousVersion := previousVersion w;
        dialogs := dialogs w; intervals := intervals w ++ [ms];
        log := log w ++ [ESetInterval ms] |}).

(** [window.location.reload()]: the page starts afresh; only
    [localStorage] survives. *)
Definition reload : M unit :=
  fun w =>
    (Return tt,
     {| storage := storage w; previousVersion := None;
        dialogs := []; intervals := []; log := log w ++ [EReload] |}).

(** [process.env.APP_VERSION || '1.0.0'] *)
Definition baseline (env : Env) : string :=
  match APP_VERSION env with
  | Some v => if Js.falsy v then "1.0.0" else v
  | None => "1.0.0"
  end.

(** [Capacitor.getPlatform() === 'android'] *)
Definition isAndroidApp (env : Env) : bool := String.eqb (platform env) "android".

(** ** PackageTrackApplier: class [ApkUpdater] *)

Module ApkUpdater.
Section WithEnv.
Variable env : Env.

Definition offerRetryInstallation (uri : string) (updateInfo : UpdateInfo)
  : M unit :=
  Dialog.create
    {| title := "Installation Failed";
       message := "The APK installation failed. Would you like to try again?";
       ok := "Retry"; cancel := true; persistent := false;
       onOk := Some (LaunchInstaller uri updateInfo); onCancel := None |}.

Definition launchInstaller (uri : string) (updateInfo : UpdateInfo) : M unit :=
  try_catch
    (Loading.show "Installing APK...";;
     call (EOpen uri "application/vnd.android.package-archive")
          (fun h => succeeds
             (FileOpener_open env h uri "application/vnd.android.package-archive"))
          "FileOpener.open failed";;
     Loading.hide;;
     Dialog.create
       {| title := "APK Installation";
          message := "The APK installation has been initiated. Please follow the system prompts to complete the installation.";
          ok := "OK"; cancel := false; persistent := false;
          onOk := Some (OfferRetry uri updateInfo); onCancel := None |})
    (fun _ =>
       Loading.hide;;
       console.error "Failed to launch installer:";;
       offerRetryInstallation uri updateInfo).

(** [response.status === 200 && response.data] *)
Definition downloaded (response : HttpResponse) : bool :=
  (status response =? 200) && negb (missing (data response)).

(** The [try] block of [performUpdate] up to the assignment of
    [fileInfo]: the artifact is fetched, written to the cache and
    located. *)
Definition fetchArtifact (updateInfo : UpdateInfo) : M string :=
  Loading.show "Downloading APK...";;
  response ← call (EHttpGet (url updateInfo))
                  (fun h => CapacitorHttp_get env h (url updateInfo))
                  "CapacitorHttp.get failed";
  if downloaded response then
    call (EWriteFile "update.apk")
         (fun h => succeeds (Filesystem_writeFile env h "update.apk"))
         "Filesystem.writeFile failed";;
    Loading.hide;;
    call (EGetUri "update.apk")
         (fun h => Filesystem_getUri env h "update.apk")
         "Filesystem.getUri failed"
  else mthrow "APK download failed".

(** [fileInfo] is [null] in the [catch] block exactly when the exception
    comes from [fetchArtifact]; once it is assigned, the only statement
    left in the [try] block is the call of [launchInstaller]. *)
Definition performUpdate (updateInfo : UpdateInfo) : M unit :=
  if negb (isAndroidApp env) then mret tt
  else
    fileInfo ← try_catch
      (uri ← fetchArtifact updateInfo; mret (Some uri))
      (fun _ =>
         Loading.hide;;
         console.error "APK update process failed:";;
         Dialog.create
           {| title := "Update Failed";
              message := "Failed to download or prepare the APK. Please try again later.";
              ok := "OK"; cancel := false; persistent := false;
              onOk := None; onCancel := None |};;
         mret None);
    match fileInfo with
    | None => mret tt
    | Some uri =>
        try_catch
          (launchInstaller uri updateInfo)
          (fun _ =>
             Loading.hide;;
             console.error "APK update process failed:";;
             offerRetryInstallation uri updateInfo)
    end.

End WithEnv.
End ApkUpdater.

(** ** AssetTrackApplier and RollbackManager: class [assetsUpdater] *)

Module AssetsUpdater.
Section WithEnv.
Variable env : Env.

Definition APP_VERSION_KEY : string := "appVersion".

Definition getLocalVersion : M string :=
  stored ← try_catch
    (storedVersion ← localStorage.getItem APP_VERSION_KEY;
     if missing storedVersion then mret None else mret storedVersion)
    (fun _ =>
       console.error "Failed to get local version from storage:";;
       mret None);
  match stored with
  | Some v => mret v
  | None => mret (baseline env)
  end.

Definition setLocalVersion (v : string) : M unit :=
  try_catch
    (localStorage.setItem APP_VERSION_KEY v)
    (fun _ => console.error "Failed to set local version:").

Definition setPreviousVersion (v : option string) : M unit :=
  fun w =>
    (Return tt,
     {| storage := storage w; previousVersion := v;
        dialogs := dialogs w; intervals := intervals w; log := log w |}).

Definition getPreviousVersion : M (option string) :=
  fun w => (Return (previousVersion w), w).

Definition downloadUpdate (updateInfo : UpdateInfo) : M (option BundleInfo) :=
  if negb (isAndroidApp env) then mret None
  else
    try_catch
      (Loading.show "Downloading update...";;
       downloadedUpdate ←
         call (EDownload (version updateInfo) (url updateInfo))
              (fun h => CapacitorUpdater_download env h
                          (version updateInfo) (url updateInfo))
              "CapacitorUpdater.download failed";
       Loading.hide;;
       mret (Some downloadedUpdate))
      (fun _ =>
         Loading.hide;;
         console.error "Failed to download update:";;
         mret None).

Definition rollbackUpdate : M unit :=
  previous ← getPreviousVersion;
  if negb (isAndroidApp env) || missing previous then mret tt
  else
    try_catch
      (Loading.show "Rolling back update...";;
       call EReset (fun h => succeeds (CapacitorUpdater_reset env h))
            "CapacitorUpdater.reset failed";;
       setLocalVersion (default "" previous);;
       Loading.hide;;
       Dialog.create
         {| title := "Update Failed";
            message := "The update failed and has been rolled back. The app will now restart.";
            ok := "Restart"; cancel := false; persistent := false;
            onOk := Some Reload; onCancel := None |})
      (fun _ =>
         Loading.hide;;
         console.error "Rollback failed:";;
         Dialog.create
           {| title := "Rollback Failed";
              message := "There was an error rolling back the update. Please restart the app manually.";
              ok := "OK"; cancel := false; persistent := false;
              onOk := None; onCancel := None |}).

Definition applyUpdate (downloadedUpdate : BundleInfo) : M unit :=
  if negb (isAndroidApp env) then mret tt
  else
    try_catch
      (Loading.show "Applying update...";;
       call (ESet downloadedUpdate)
            (fun h => succeeds (CapacitorUpdater_set env h downloadedUpdate))
            "CapacitorUpdater.set failed";;
       setLocalVersion (bundle_version downloadedUpdate);;
       Loading.hide;;
       Dialog.create
         {| title := "Update Successful";
            message := "The app has been updated. It will now restart.";
            ok := "Ok"; cancel := false; persistent := false;
            onOk := Some Reload; onCancel := None |})
      (fun _ =>
         Loading.hide;;
         console.error "Update failed:";;
         rollbackUpdate).

Definition performUpdate (updateInfo : UpdateInfo) : M unit :=
  if negb (isAndroidApp env) then mret tt
  else
    try_catch
      (downloadedUpdate ← downloadUpdate updateInfo;
       match downloadedUpdate with
       | Some b =>
           previous ← getLocalVersion;
           setPreviousVersion (Some previous);;
           applyUpdate b
       | None => mret tt
       end)
      (fun _ =>
         console.error "Update process failed:";;
         rollbackUpdate).

End WithEnv.
End AssetsUpdater.

(** ** VersionStore, UpdateChecker and UpdateCoordinator: class [Updater] *)

Module Updater.

Definition VERSION_KEYS_apk : string := "apkVersion".
Definition VERSION_KEYS_assets : string := "assetsVersion".

(** [updateType === 'apk' ? VERSION_KEYS.apk : VERSION_KEYS.assets] *)
Definition versionKey (updateType : string) : string :=
  if String.eqb updateType "apk" then VERSION_KEYS_apk else VERSION_KEYS_assets.

Section WithEnv.
Variable env : Env.

Definition initializeVersions : M unit :=
let currentAppVersion := baseline env in
apk ← localStorage.getItem VERSION_KEYS_apk;
(if missing apk then localStorage.setItem VERSION_KEYS_apk currentAppVersion
 else mret tt);;
assets ← localStorage.getItem VERSION_KEYS_assets;
(if missing assets
 then localStorage.setItem VERSION_KEYS_assets currentAppVersion
 else mret tt).

Definition getLocalVersion (updateType : string) : M string :=
let key := versionKey updateType in
try_catch
  (storedVersion ← localStorage.getItem key;
   match storedVersion with
   | Some v =>
       if Js.falsy v
       then localStorage.setItem key (baseline env);; mret (baseline env)
       else mret v
   | None => localStorage.setItem key (baseline env);; mret (baseline env)
   end)
  (fun _ =>
     console.error "Failed to get local version from storage:";;
     mret (baseline env)).

Definition updateLocalVersion (updateType newVersion : string) : M unit :=
let key := versionKey updateType in
try_catch
  (localStorage.setItem key newVersion)
  (fun _ => console.error "Failed to update local version:").

(** [Array.isArray(response.data) ? response.data[0] : response.data],
  followed by the read of [updateInfo.version], which throws on the
  [undefined] first element of an empty array. *)
Definition narrow (d : responseData) : M UpdateInfo :=
match d with
| OneObject updateInfo => mret updateInfo
| AnArray (updateInfo :: _) => mret updateInfo
| AnArray [] => mthrow "TypeError: Cannot read properties of undefined"
| NoData => mthrow "TypeError: Cannot read properties of undefined"
end.

Definition checkForNewVersion : M (option UpdateInfo) :=
try_catch
  (response ← call EFetch (updaterService_fetchUpdateInfo env)
                   "fetchUpdateInfo failed";
   match response with
   | NoData => mret None
   | _ =>
       updateInfo ← narrow response;
       let remoteVersion := version updateInfo in
       localVersion ← getLocalVersion (updateType updateInfo);
       if isNewerVersion remoteVersion localVersion then
         mret (Some {| version := version updateInfo;
                       updateType := updateType updateInfo;
                       url := url updateInfo;
                       web_assets_url := web_assets_url updateInfo;
                       notes := notes updateInfo;
                       sessionKey := sessionKey updateInfo |})
       else mret None
   end)
  (fun _ =>
     console.error "Version check failed:";;
     mret None).

Definition promptForUpdate (updateInfo : UpdateInfo) : M unit :=
if negb (isAndroidApp env) then mret tt
else
  Dialog.create
    {| title := (if String.eqb (updateType updateInfo) "apk"
                 then "APK" else "Update") ++ " Available";
       message := "A new " ++ updateType updateInfo ++ " version ("
                  ++ version updateInfo
                  ++ ") is available. Would you like to update now?";
       ok := "OK"; cancel := true; persistent := true;
       onOk := Some (UpdateAccepted updateInfo);
       onCancel := Some UpdateCancelled |}.

(** The [onOk] callback of the consent dialog. *)
Definition onUpdateAccepted (updateInfo : UpdateInfo) : M unit :=
try_catch
  ((if String.eqb (updateType updateInfo) "apk"
    then ApkUpdater.performUpdate env updateInfo
    else AssetsUpdater.performUpdate env updateInfo);;
   updateLocalVersion (updateType updateInfo) (version updateInfo))
  (fun _ =>
     console.error "Update failed for";;
     Dialog.create
       {| title := "Update Failed";
          message := "Failed to install the update. Please try again later.";
          ok := "OK"; cancel := false; persistent := false;
          onOk := None; onCancel := None |}).

(** The [onCancel] callback of the consent dialog: it only logs. *)
Definition onUpdateCancelled : M unit := mret tt.

Definition checkForUpdates : M unit :=
if negb (isAndroidApp env) then mret tt
else
  try_catch
    (updateInfo ← checkForNewVersion;
     match updateInfo with
     | Some info => promptForUpdate info
     | None => mret tt
     end)
    (fun _ => console.error "Update check failed:").

Definition initialize : M unit :=
if negb (isAndroidApp env) then mret tt
else
  initializeVersions;;
  call ENotifyAppReady
       (fun h => succeeds (CapacitorUpdater_notifyAppReady env h))
       "CapacitorUpdater.notifyAppReady failed";;
  checkForUpdates;;
  setInterval (30 * 60 * 1000).

End WithEnv.
End Updater.

(** ** The running application: timer ticks and clicks on dialogs *)

Section App.
Variable env : Env.

Definition runHandler (h : option handler) : M unit :=
  match h with
  | Some (UpdateAccepted updateInfo) => Updater.onUpdateAccepted env updateInfo
  | Some UpdateCancelled => Updater.onUpdateCancelled
  | Some Reload => reload
  | Some (OfferRetry uri updateInfo) =>
      ApkUpdater.offerRetryInstallation uri updateInfo
  | Some (LaunchInstaller uri updateInfo) =>
      ApkUpdater.launchInstaller env uri updateInfo
  | None => mret tt
  end.

(** The dialog at position [i] leaves the screen. *)
Definition close (i : nat) (w : World) : World :=
  {| storage := storage w; previousVersion := previousVersion w;
     dialogs := take i (dialogs w) ++ drop (S i) (dialogs w);
     intervals := intervals w; log := log w |}.

Inductive event : Type :=
| TimerTick (i : nat)      (* the [i]-th armed interval fires *)
| ClickOk (i : nat)        (* the user confirms the [i]-th dialog *)
| ClickCancel (i : nat).   (* the user cancels the [i]-th dialog *)

Definition step (w : World) (ev : event) : World :=
  match ev with
  | TimerTick i =>
      match intervals w !! i with
      | Some _ => (Updater.checkForUpdates env w).2
      | None => w
      end
  | ClickOk i =>
      match dialogs w !! i with
      | Some d => (runHandler (onOk d) (close i w)).2
      | None => w
      end
  | ClickCancel i =>
      match dialogs w !! i with
      | Some d => if cancel d then (runHandler (onCancel d) (close i w)).2 else w
      | None => w
      end
  end.

Definition run (w : World) (evs : list event) : World := fold_left step evs w.

End App.

(** A consent dialog is on screen: the coordinator is awaiting consent. *)
Definition isConsent (d : dialog) : bool :=
  match onOk d with
  | Some (UpdateAccepted _) => true
  | _ => false
  end.

Definition awaitingConsent (w : World) : bool := existsb isConsent (dialogs w).

(** A freshly started application with the given [localStorage]. *)
Definition start (items : gmap string string) : World :=
  {| storage := items; previousVersion := None; dialogs := [];
     intervals := []; log := [] |}.

(** How often an effect occurs in a log. *)
Definition isFetch (e : effect) : bool :=
  match e with EFetch => true | _ => false end.

Definition isOpen (e : effect) : bool :=
  match e with EOpen _ _ => true | _ => false end.

Definition fetches (w : World) : nat := length (filter (fun e => isFetch e = true) (log w)).

(** ** Vocabulary of the statements *)

(** The descriptor a remote answer is narrowed to. *)
Definition firstDescriptor (d : responseData) : option UpdateInfo :=
  match d with
  | OneObject updateInfo => Some updateInfo
  | AnArray (updateInfo :: _) => Some updateInfo
  | _ => None
  end.

(** The version on record for a track: the stored item, or the baseline
    when there is none. *)
Definition localVersion (env : Env) (w : World) (updateType : string) : string :=
  match storage w !! Updater.versionKey updateType with
  | Some v => if Js.falsy v then baseline env else v
  | None => baseline env
  end.

(** The version the asset applier takes for the active one. *)
Definition appVersion (env : Env) (w : World) : string :=
  match storage w !! AssetsUpdater.APP_VERSION_KEY with
  | Some v => if Js.falsy v then baseline env else v
  | None => baseline env
  end.

(** The remote collaborator fails the check: the request rejects, or the
    answer is an array with nothing in it. *)
Definition checkFails (env : Env) (w : World) : Prop :=
  updaterService_fetchUpdateInfo env (log w) = None \/
  updaterService_fetchUpdateInfo env (log w) = Some (AnArray []).

(** The logs at which [ApkUpdater.performUpdate] consults its
    collaborators. *)
Definition atHttpGet (w : World) : list effect :=
  log w ++ [ELoadingShow "Downloading APK..."].

Definition atWriteFile (w : World) (updateInfo : UpdateInfo) : list effect :=
  atHttpGet w ++ [EHttpGet (url updateInfo)].

Definition atGetUri (w : World) (updateInfo : UpdateInfo) : list effect :=
  (atWriteFile w updateInfo ++ [EWriteFile "update.apk"]) ++ [ELoadingHide].

(** The package artifact is not retrieved: the request rejects, the
    answer is not a 200 with a body, or the artifact cannot be written to
    or located in the cache. *)
Inductive retrievalFails (env : Env) (w : World) (updateInfo : UpdateInfo) : Prop :=
| RequestRejected :
    CapacitorHttp_get env (atHttpGet w) (url updateInfo) = None ->
    retrievalFails env w updateInfo
| BadResponse response :
    CapacitorHttp_get env (atHttpGet w) (url updateInfo) = Some response ->
    ApkUpdater.downloaded response = false ->
    retrievalFails env w updateInfo
| WriteRejected :
    Filesystem_writeFile env (atWriteFile w updateInfo) "update.apk" = false ->
    retrievalFails env w updateInfo
| UriRejected :
    Filesystem_getUri env (atGetUri w updateInfo) "update.apk" = None ->
    retrievalFails env w updateInfo.

(** The notice [ApkUpdater.performUpdate] shows when it has no artifact. *)
Definition apkFailureNotice : dialog :=
  {| title := "Update Failed";
     message := "Failed to download or prepare the APK. Please try again later.";
     ok := "OK"; cancel := false; persistent := false;
     onOk := None; onCancel := None |}.

(** The notice [rollbackUpdate] shows when the revert itself fails. *)
Definition rollbackFailureNotice : dialog :=
  {| title := "Rollback Failed";
     message := "There was an error rolling back the update. Please restart the app manually.";
     ok := "OK"; cancel := false; persistent := false;
     onOk := None; onCancel := None |}.

(** The dialog [rollbackUpdate] shows after a revert; confirming it
    restarts the application. *)
Definition rolledBackDialog : dialog :=
  {| title := "Update Failed";
     message := "The update failed and has been rolled back. The app will now restart.";
     ok := "Restart"; cancel := false; persistent := false;
     onOk := Some Reload; onCancel := None |}.

(** A dialog offers a retry when confirming it launches the installer. *)
Definition offersRetry (d : dialog) : bool :=
  match onOk d with
  | Some (LaunchInstaller _ _) => true
  | Some (OfferRetry _ _) => true
  | _ => false
  end.

(** ** Scenarios *)

Definition bundle105 : UpdateInfo :=
  {| version := "1.0.5"; notes := None; url := "https://updates.example/1.0.5.zip";
     sessionKey := "s"; updateType := "assets"; web_assets_url := "" |}.

Definition package106 : UpdateInfo :=
  {| version := "1.0.6"; notes := Some "release"; url := "https://updates.example/app.apk";
     sessionKey := "s"; updateType := "apk"; web_assets_url := "" |}.

Definition malformed : UpdateInfo :=
  {| version := "1.a.0"; notes := None; url := "https://updates.example/x.zip";
     sessionKey := "s"; updateType := "assets"; web_assets_url := "" |}.

(** An Android device built at 1.0.0 whose collaborators always give the
    same answers. *)
Definition device (fetched : option responseData) (bundle : option BundleInfo)
    (activates reverts : bool) (artifact : option HttpResponse) : Env :=
  {| platform := "android";
     APP_VERSION := Some "1.0.0";
     updaterService_fetchUpdateInfo := fun _ => fetched;
     CapacitorUpdater_notifyAppReady := fun _ => true;
     CapacitorUpdater_download := fun _ _ _ => bundle;
     CapacitorUpdater_set := fun _ _ => activates;
     CapacitorUpdater_reset := fun _ => reverts;
     CapacitorHttp_get := fun _ _ => artifact;
     Filesystem_writeFile := fun _ _ => true;
     Filesystem_getUri := fun _ _ => Some "file:///cache/update.apk";
     FileOpener_open := fun _ _ _ => true |}.

(** The remote offers bundle 1.0.5 and its download fails. *)
Definition downloadFails : Env :=
  device (Some (AnArray [bundle105])) None true true None.

(** The remote offers bundle 1.0.5, it downloads, and activation fails. *)
Definition activationFails : Env :=
  device (Some (OneObject bundle105))
         (Some {| bundle_id := "b1"; bundle_version := "1.0.5" |})
         false true None.

(** The remote offers package 1.0.6 and the artifact request answers 404. *)
Definition artifactMissing : Env :=
  device (Some (OneObject package106)) None true true
         (Some {| status := 404; data := None |}).

(** The remote endpoint is unreachable. *)
Definition offline : Env := device None None true true None.

(** The remote offers a descriptor with a malformed version. *)
Definition malformedRemote : Env :=
  device (Some (OneObject malformed)) None true true None.

(** Both tracks on record at 1.0.4. *)
Definition at104 : World :=
  start (<["assetsVersion" := "1.0.4"]> (<["apkVersion" := "1.0.4"]> ∅)).

(** The bundle track on record at 1.0.0. *)
Definition at100 : World := start (<["assetsVersion" := "1.0.0"]> ∅).

(** After a failed bundle download was recorded as 1.0.5: the checker's
    record and the applier's own record differ. *)
Definition diverged : World :=
  {| storage := <["assetsVersion" := "1.0.5"]> (<["appVersion" := "1.0.4"]> ∅);
     previousVersion := Some "1.0.4"; dialogs := []; intervals := []; log := [] |}.

(** ** Properties of computations *)

(** The computation relates every world to the world it leaves, whether
    it returns or throws. *)
Definition preserves (R : World -> World -> Prop) {A : Type} (m : M A) : Prop :=
  forall w, R w (m w).2.

(** The computation never throws. *)
Definition total {A : Type} (m : M A) : Prop :=
  forall w, exists a, (m w).1 = Return a.

(** The first thing the computation does is the effect [e]. *)
Definition startsWith (e : effect) {A : Type} (m : M A) : Prop :=
  forall w, exists rest, log (m w).2 = (log w ++ e :: rest)%list.

(** The item under [key] is the same in both worlds. *)
Definition sameItem (key : string) (w w' : World) : Prop :=
  storage w' !! key = storage w !! key.

(** The log of the second world continues the log of the first. *)
Definition grows (w w' : World) : Prop :=
  exists rest, log w' = (log w ++ rest)%list.

(** The same intervals are armed in both worlds. *)
Definition sameIntervals (w w' : World) : Prop := intervals w' = intervals w.

(** ** Vocabulary for the rest of the code *)

(** The consent dialog of [Updater.promptForUpdate]. *)
Definition consentDialog (updateInfo : UpdateInfo) : dialog :=
  {| title := (if String.eqb (updateType updateInfo) "apk"
               then "APK" else "Update") ++ " Available";
     message := "A new " ++ updateType updateInfo ++ " version ("
                ++ version updateInfo
                ++ ") is available. Would you like to update now?";
     ok := "OK"; cancel := true; persistent := true;
     onOk := Some (UpdateAccepted updateInfo);
     onCancel := Some UpdateCancelled |}.

(** The dialog [applyUpdate] shows after a successful activation. *)
Definition updateSuccessfulDialog : dialog :=
  {| title := "Update Successful";
     message := "The app has been updated. It will now restart.";
     ok := "Ok"; cancel := false; persistent := false;
     onOk := Some Reload; onCancel := None |}.

(** The dialog [launchInstaller] shows once the installer is open. *)
Definition installationDialog (uri : string) (updateInfo : UpdateInfo) : dialog :=
  {| title := "APK Installation";
     message := "The APK installation has been initiated. Please follow the system prompts to complete the installation.";
     ok := "OK"; cancel := false; persistent := false;
     onOk := Some (OfferRetry uri updateInfo); onCancel := None |}.

(** The dialog of [offerRetryInstallation]. *)
Definition retryDialog (uri : string) (updateInfo : UpdateInfo) : dialog :=
  {| title := "Installation Failed";
     message := "The APK installation failed. Would you like to try again?";
     ok := "Retry"; cancel := true; persistent := false;
     onOk := Some (LaunchInstaller uri updateInfo); onCancel := None |}.

(** The content type [launchInstaller] opens the artifact with. *)
Definition apkContentType : string := "application/vnd.android.package-archive".

(** The logs at which [assetsUpdater.performUpdate] consults the bundle
    delivery. *)
Definition atDownload (w : World) : list effect :=
  log w ++ [ELoadingShow "Downloading update..."].

Definition atSet (w : World) (updateInfo : UpdateInfo) : list effect :=
  ((atDownload w ++ [EDownload (version updateInfo) (url updateInfo)])
     ++ [ELoadingHide]) ++ [ELoadingShow "Applying update..."].

Definition atReset (w : World) (updateInfo : UpdateInfo) (b : BundleInfo)
  : list effect :=
  ((((atSet w updateInfo ++ [ESet b]) ++ [ELoadingHide])
      ++ [EConsoleError "Update failed:"])
     ++ [ELoadingShow "Rolling back update..."]).

(** The log at which [launchInstaller] opens the artifact. *)
Definition atOpen (w : World) : list effect :=
  log w ++ [ELoadingShow "Installing APK..."].

(** The log at which [ApkUpdater.performUpdate] opens the artifact it has
    just retrieved. *)
Definition atLaunch (w : World) (updateInfo : UpdateInfo) : list effect :=
  (atGetUri w updateInfo ++ [EGetUri "update.apk"])
    ++ [ELoadingShow "Installing APK..."].

(** The storage, the applier's previous version and the armed intervals
    are the same in both worlds. *)
Definition sameRecords (w w' : World) : Prop :=
  storage w' = storage w /\ previousVersion w' = previousVersion w /\
  intervals w' = intervals w.

Definition isReset (e : effect) : bool :=
  match e with EReset => true | _ => false end.

(** The numbers of a version string whose first three pieces read as
    numbers, in units of [2^-1074]. *)
Definition triple (v : string) : option (Z * Z * Z) :=
  match component v 0, component v 1, component v 2 with
  | Some x, Some y, Some z => Some (x, y, z)
  | _, _, _ => None
  end.

(** Lexicographic order on triples of numbers. *)
Definition tripleLt (a b : Z * Z * Z) : Prop :=
  let '(x1, y1, z1) := a in
  let '(x2, y2, z2) := b in
  x1 < x2 \/ (x1 = x2 /\ (y1 < y2 \/ (y1 = y2 /\ z1 < z2))).

(** The applier the coordinator dispatches an accepted offer to. *)
Definition applier (env : Env) (updateInfo : UpdateInfo) : M unit :=
  if String.eqb (updateType updateInfo) "apk"
  then ApkUpdater.performUpdate env updateInfo
  else AssetsUpdater.performUpdate env updateInfo.

(** A browser: the same collaborators on a platform that is not Android. *)
Definition browser : Env :=
  {| platform := "web";
     APP_VERSION := Some "1.0.0";
     updaterService_fetchUpdateInfo := fun _ => Some (OneObject bundle105);
     CapacitorUpdater_notifyAppReady := fun _ => true;
     CapacitorUpdater_download := fun _ _ _ => None;
     CapacitorUpdater_set := fun _ _ => true;
     CapacitorUpdater_reset := fun _ => true;
     CapacitorHttp_get := fun _ _ => None;
     Filesystem_writeFile := fun _ _ => true;
     Filesystem_getUri := fun _ _ => None;
     FileOpener_open := fun _ _ _ => true |}.

(** A handler that records a version records one that is not empty. *)
Definition soundHandler (h : option handler) : bool :=
  match h with
  | Some (UpdateAccepted updateInfo) => negb (Js.falsy (version updateInfo))
  | _ => true
  end.

(** Neither button of the dialog records an empty version. *)
Definition offersVersion (d : dialog) : bool :=
  soundHandler (onOk d) && soundHandler (onCancel d).

(** The track kept under [key] has a non-empty record. *)
Definition present (key : string) (w : World) : Prop :=
  missing (storage w !! key) = false.

(** No dialog on screen records an empty version. *)
Definition soundOffers (w : World) : Prop :=
  forallb offersVersion (dialogs w) = true.

(** Both tracks have a non-empty record, and no dialog on screen records
    an empty version. *)
Definition recordsPresent (w : World) : Prop :=
  present Updater.VERSION_KEYS_apk w /\
  present Updater.VERSION_KEYS_assets w /\
  soundOffers w.

(** What holds of the first world holds of the second. *)
Definition maintains (P : World -> Prop) (w w' : World) : Prop := P w -> P w'.


(** * Proofs *)

Example split_three : Js.split "." "1.0.5" = ["1"; "0"; "5"].
Proof. reflexivity. Qed.

Example split_empty : Js.split "." "" = [""].
Proof. reflexivity. Qed.

Example split_trailing_dot : Js.split "." "1." = ["1"; ""].
Proof. reflexivity. Qed.

Example parts_malformed :
  versionParts "1.a.0" = [Js.whole 1; Js.NaN; Js.whole 0].
Proof. by vm_compute. Qed.

(** [Number] on pieces that are not runs of digits. *)
Example parts_signed_exponent_hex :
  versionParts "-1.1e2.0x1F" = [Js.whole (-1); Js.whole 100; Js.whole 31].
Proof. by vm_compute. Qed.

Example Number_literals :
  Js.Number "1e1" = Js.Number "10" /\
  Js.Number "+7" = Js.whole 7 /\
  Js.Number "0b101" = Js.whole 5 /\
  Js.Number "0O17" = Js.whole 15 /\
  Js.Number "1.5e1" = Js.whole 15 /\
  Js.Number "2." = Js.whole 2 /\
  Js.Number "25e-1" = Js.Number "2.5" /\
  Js.Number ".5" = Js.Num (2 ^ 1073) /\
  Js.Number "-0" = Js.whole 0.
Proof. by vm_compute. Qed.

Example Number_blank :
  Js.Number "" = Js.whole 0 /\
  Js.Number " " = Js.whole 0 /\
  Js.Number " 12 " = Js.whole 12 /\
  Js.Number (String (ascii_of_nat 9) (String "3" (String (ascii_of_nat 160) "")))
    = Js.whole 3.
Proof. by vm_compute. Qed.

Example Number_not_a_number :
  Js.Number "a" = Js.NaN /\ Js.Number "1_0" = Js.NaN /\
  Js.Number "1n" = Js.NaN /\ Js.Number "0x" = Js.NaN /\
  Js.Number "-0x10" = Js.NaN /\ Js.Number "0b2" = Js.NaN /\
  Js.Number "1e" = Js.NaN /\ Js.Number "e5" = Js.NaN /\
  Js.Number "1 2" = Js.NaN /\ Js.Number "." = Js.NaN /\
  Js.Number "-" = Js.NaN /\ Js.Number "infinity" = Js.NaN /\
  Js.Number "1.2.3" = Js.NaN /\ Js.Number "0x1.8" = Js.NaN.
Proof. by vm_compute. Qed.

(** Above [2^53] a whole number is rounded, ties going to the even
    significand. *)
Example Number_rounds :
  Js.Number "9007199254740992" = Js.whole (2 ^ 53) /\
  Js.Number "9007199254740993" = Js.whole (2 ^ 53) /\
  Js.Number "9007199254740994" = Js.whole (2 ^ 53 + 2) /\
  Js.Number "9007199254740995" = Js.whole (2 ^ 53 + 4) /\
  Js.Number "0x20000000000001" = Js.whole (2 ^ 53) /\
  Js.Number "0.1" = Js.Num (3602879701896397 * 2 ^ 1019).
Proof. by vm_compute. Qed.

Example Number_range :
  Js.Number "Infinity" = Js.Num Js.infinity /\
  Js.Number "-Infinity" = Js.Num (- Js.infinity) /\
  Js.Number "1e400" = Js.Num Js.infinity /\
  Js.Number "1.7976931348623157e308" = Js.Num ((2 ^ 53 - 1) * 2 ^ 2045) /\
  Js.Number "1.7976931348623159e308" = Js.Num Js.infinity /\
  Js.Number "5e-324" = Js.Num 1 /\
  Js.Number "2e-324" = Js.Num 0.
Proof. by vm_compute. Qed.

Example isNewerVersion_reads_exponents :
  isNewerVersion "1e1.0.0" "9.0.0" = true.
Proof. by vm_compute. Qed.

Example isNewerVersion_rounds :
  isNewerVersion "1.0.9007199254740993" "1.0.9007199254740992" = false.
Proof. by vm_compute. Qed.

Example newer_patch : isNewerVersion "1.0.5" "1.0.4" = true.
Proof. reflexivity. Qed.

Example newer_older : isNewerVersion "1.0.4" "1.1.0" = false.
Proof. reflexivity. Qed.

Example newer_empty : isNewerVersion "" "1.0.0" = false.
Proof. reflexivity. Qed.

(** Unfolds the monad and its primitive steps, and reads the fields of
    the worlds that result. *)
Ltac exec :=
  unfold Loading.show, Loading.hide, console.error,
    AssetsUpdater.setPreviousVersion, AssetsUpdater.getPreviousVersion;
  unfold try_catch, mbind, mret, mthrow, M_bind, M_ret, M_throw, call, emit,
    Dialog.create, localStorage.getItem, localStorage.setItem, setInterval,
    reload, succeeds, record;
  cbn [storage previousVersion dialogs intervals log fst snd negb orb andb].

(** ** Composition rules *)

Section Rules.
Context {A B : Type}.
Implicit Types (m : M A) (f : A -> M B) (h : string -> M A).

Lemma bind_unfold m f w :
  (m ≫= f) w =
    match m w with
    | (Return a, w') => f a w'
    | (Throw e, w') => (Throw e, w')
    end.
Proof. reflexivity. Qed.

Lemma try_catch_unfold m h w :
  try_catch m h w =
    match m w with
    | (Return a, w') => (Return a, w')
    | (Throw e, w') => h e w'
    end.
Proof. reflexivity. Qed.

Section Preserved.
Context (R : World -> World -> Prop) `{!PreOrder R}.

Lemma preserves_ret (a : A) : preserves R (mret a : M A).
Proof. intros w. reflexivity. Qed.

Lemma preserves_throw (e : string) : preserves R (mthrow e : M A).
Proof. intros w. reflexivity. Qed.

Lemma preserves_bind m f :
  preserves R m -> (forall a, preserves R (f a)) -> preserves R (m ≫= f).
Proof.
  intros Hm Hf w. rewrite bind_unfold. specialize (Hm w).
  destruct (m w) as [[a|e] w1]; cbn [snd] in *; [|assumption].
  etransitivity; [exact Hm | apply Hf].
Qed.

Lemma preserves_try_catch m h :
  preserves R m -> (forall e, preserves R (h e)) -> preserves R (try_catch m h).
Proof.
  intros Hm Hh w. rewrite try_catch_unfold. specialize (Hm w).
  destruct (m w) as [[a|e] w1]; cbn [snd] in *; [assumption|].
  etransitivity; [exact Hm | apply Hh].
Qed.
End Preserved.

Lemma total_ret (a : A) : total (mret a : M A).
Proof. intros w. by exists a. Qed.

Lemma total_bind m f :
  total m -> (forall a, total (f a)) -> total (m ≫= f).
Proof.
  intros Hm Hf w. rewrite bind_unfold. destruct (Hm w) as [a Ha].
  destruct (m w) as [r w1]; cbn [fst] in Ha; subst r. apply Hf.
Qed.

Lemma total_try_catch m h : (forall e, total (h e)) -> total (try_catch m h).
Proof.
  intros Hh w. rewrite try_catch_unfold.
  destruct (m w) as [[a|e] w1]; [by exists a | apply Hh].
Qed.

Lemma startsWith_bind (e : effect) m f :
  startsWith e m -> (forall a, preserves grows (f a)) -> startsWith e (m ≫= f).
Proof.
  intros Hm Hf w. rewrite bind_unfold. destruct (Hm w) as [rest Hrest].
  destruct (m w) as [[a|x] w1]; cbn [snd] in *; [|by exists rest].
  destruct (Hf a w1) as [more Hmore]. exists (rest ++ more)%list.
  rewrite Hmore, Hrest, <- app_assoc. reflexivity.
Qed.

Lemma startsWith_try_catch (e : effect) m h :
  startsWith e m -> (forall x, preserves grows (h x)) ->
  startsWith e (try_catch m h).
Proof.
  intros Hm Hh w. rewrite try_catch_unfold. destruct (Hm w) as [rest Hrest].
  destruct (m w) as [[a|x] w1]; cbn [snd] in *; [by exists rest|].
  destruct (Hh x w1) as [more Hmore]. exists (rest ++ more)%list.
  rewrite Hmore, Hrest, <- app_assoc. reflexivity.
Qed.

End Rules.

Lemma startsWith_call {A : Type} (e : effect) (answer : list effect -> option A)
    (msg : string) : startsWith e (call e answer msg).
Proof. intros w. exists []. unfold call. by destruct (answer (log w)). Qed.

#[global] Instance grows_preorder : PreOrder grows.
Proof.
  split.
  - intros w. exists []. by rewrite app_nil_r.
  - intros w1 w2 w3 [r1 H1] [r2 H2]. exists (r1 ++ r2)%list.
    by rewrite H2, H1, <- app_assoc.
Qed.

#[global] Instance sameItem_preorder (key : string) : PreOrder (sameItem key).
Proof.
  split.
  - intros w. reflexivity.
  - intros w1 w2 w3 H1 H2. unfold sameItem in *. congruence.
Qed.

#[global] Instance sameIntervals_preorder : PreOrder sameIntervals.
Proof.
  split.
  - intros w. reflexivity.
  - intros w1 w2 w3 H1 H2. unfold sameIntervals in *. congruence.
Qed.

(** ** Going through a computation *)

Create HintDb engine discriminated.

Ltac grows_leaf :=
  intros ?; exec; repeat case_match; cbn [snd log];
  first [ reflexivity | eexists; cbn [log]; rewrite <- ?app_assoc; reflexivity ].

Ltac item_leaf :=
  intros ?; exec; repeat case_match; unfold sameItem; cbn [snd storage];
  first [ reflexivity | by rewrite lookup_insert_ne ].

Ltac intervals_leaf :=
  intros ?; exec; repeat case_match; reflexivity.

Ltac total_leaf :=
  intros ?; exec; eexists; reflexivity.

(** Splits the goal along binds, handlers and branches, and leaves the
    primitive steps to [leaf]. *)
Ltac walk leaf :=
  repeat first
    [ match goal with
      | |- preserves ?R _ =>
          first [ apply (preserves_ret R) | apply (preserves_throw R)
                | apply (preserves_bind R); [|intros ?]
                | apply (preserves_try_catch R); [|intros ?] ]
      end
    | apply total_ret
    | apply total_bind; [|intros ?]
    | apply total_try_catch; intros ?
    | solve [auto with engine nocore]
    | progress case_match
    | solve [leaf] ].

(** ** The log only grows, and a check starts by asking the remote *)

Lemma getLocalVersion_grows env t : preserves grows (Updater.getLocalVersion env t).
Proof. unfold Updater.getLocalVersion. walk grows_leaf. Qed.

Lemma narrow_grows d : preserves grows (Updater.narrow d).
Proof. unfold Updater.narrow. walk grows_leaf. Qed.

Lemma promptForUpdate_grows env info :
  preserves grows (Updater.promptForUpdate env info).
Proof. unfold Updater.promptForUpdate. walk grows_leaf. Qed.

#[local] Hint Resolve getLocalVersion_grows narrow_grows promptForUpdate_grows
  : engine.

Lemma checkForNewVersion_startsWith env :
  startsWith EFetch (Updater.checkForNewVersion env).
Proof.
  unfold Updater.checkForNewVersion.
  apply startsWith_try_catch; [apply startsWith_bind; [apply startsWith_call|]|];
    intros ?; walk grows_leaf.
Qed.

Lemma checkForUpdates_startsWith env :
  isAndroidApp env = true -> startsWith EFetch (Updater.checkForUpdates env).
Proof.
  intros Handroid. unfold Updater.checkForUpdates. rewrite Handroid. cbn [negb].
  apply startsWith_try_catch;
    [apply startsWith_bind; [apply checkForNewVersion_startsWith|]|];
    intros ?; walk grows_leaf.
Qed.

(** ** A check leaves the timers alone and never throws *)

Lemma checkForUpdates_sameIntervals env :
  preserves sameIntervals (Updater.checkForUpdates env).
Proof.
  unfold Updater.checkForUpdates, Updater.checkForNewVersion,
    Updater.promptForUpdate, Updater.getLocalVersion, Updater.narrow.
  walk intervals_leaf.
Qed.

Lemma checkForUpdates_total env : total (Updater.checkForUpdates env).
Proof. unfold Updater.checkForUpdates. walk total_leaf. Qed.

Lemma initializeVersions_sameIntervals env :
  preserves sameIntervals (Updater.initializeVersions env).
Proof. unfold Updater.initializeVersions. walk intervals_leaf. Qed.

Lemma initializeVersions_total env : total (Updater.initializeVersions env).
Proof. unfold Updater.initializeVersions. walk total_leaf. Qed.

(** ** The appliers never throw *)

Lemma rollbackUpdate_total env : total (AssetsUpdater.rollbackUpdate env).
Proof. unfold AssetsUpdater.rollbackUpdate. walk total_leaf. Qed.

#[local] Hint Resolve rollbackUpdate_total : engine.

Lemma assets_performUpdate_total env info :
  total (AssetsUpdater.performUpdate env info).
Proof. unfold AssetsUpdater.performUpdate. walk total_leaf. Qed.

Lemma apk_performUpdate_total env info :
  total (ApkUpdater.performUpdate env info).
Proof.
  unfold ApkUpdater.performUpdate, ApkUpdater.offerRetryInstallation.
  walk total_leaf.
Qed.

(** Once the consent dialog is confirmed, the descriptor's version is put
    on record, whatever the applier met. *)
Lemma onUpdateAccepted_records env info w :
  storage (Updater.onUpdateAccepted env info w).2
    !! Updater.versionKey (updateType info) = Some (version info).
Proof.
  unfold Updater.onUpdateAccepted. rewrite try_catch_unfold, bind_unfold.
  assert (Hperform : exists w1,
    (if String.eqb (updateType info) "apk"
     then ApkUpdater.performUpdate env info
     else AssetsUpdater.performUpdate env info) w = (Return (), w1)).
  { destruct (String.eqb (updateType info) "apk").
    - destruct (apk_performUpdate_total env info w) as [[] H].
      destruct (ApkUpdater.performUpdate env info w) as [r w1].
      cbn [fst] in H. subst r. by exists w1.
    - destruct (assets_performUpdate_total env info w) as [[] H].
      destruct (AssetsUpdater.performUpdate env info w) as [r w1].
      cbn [fst] in H. subst r. by exists w1. }
  destruct Hperform as [w1 ->]. unfold Updater.updateLocalVersion. exec.
  apply lookup_insert_eq.
Qed.

(** ** The comparator *)

Section Comparator.

Implicit Types (a b : Js.slot) (p q : list Js.num) (n i j k : nat).

Lemma gt_lt_swap a b : Js.gt a b = Js.lt b a.
Proof. unfold Js.gt, Js.lt. destruct (Js.toNumber a), (Js.toNumber b); reflexivity. Qed.

Lemma gt_irrefl a : Js.gt a a = false.
Proof. unfold Js.gt. destruct (Js.toNumber a); [reflexivity | apply Z.ltb_irrefl]. Qed.

Lemma gt_true_not_lt a b : Js.gt a b = true -> Js.lt a b = false.
Proof.
  unfold Js.gt, Js.lt. destruct (Js.toNumber a), (Js.toNumber b); try discriminate.
  intros H%Z.ltb_lt. apply Z.ltb_ge. lia.
Qed.

Lemma compareFrom_refl n i p : compareFrom n i p p = false.
Proof.
  revert i. induction n as [|n IH]; intros i; simpl; [reflexivity|].
  rewrite <- gt_lt_swap, gt_irrefl. apply IH.
Qed.

Lemma gt_asym a b : Js.gt a b = true -> Js.gt b a = false.
Proof. intros H. rewrite gt_lt_swap. by apply gt_true_not_lt. Qed.

Lemma compareFrom_asym n i p q :
  compareFrom n i p q = true -> compareFrom n i q p = false.
Proof.
  revert i. induction n as [|n IH]; intros i; simpl; [discriminate|].
  rewrite <- !gt_lt_swap.
  destruct (Js.gt (p !! i) (q !! i)) eqn:Hpq.
  - intros _. by rewrite (gt_asym _ _ Hpq).
  - destruct (Js.gt (q !! i) (p !! i)) eqn:Hqp; [discriminate | apply IH].
Qed.

Lemma compareFrom_true n i p q :
  compareFrom n i p q = true <->
  exists k, (i <= k < i + n)%nat /\
    Js.gt (p !! k) (q !! k) = true /\
    forall j, (i <= j < k)%nat ->
      Js.gt (p !! j) (q !! j) = false /\ Js.lt (p !! j) (q !! j) = false.
Proof.
  revert i. induction n as [|n IH]; intros i; simpl.
  - split; [discriminate | intros (k & Hk & _); lia].
  - destruct (Js.gt (p !! i) (q !! i)) eqn:Hgt.
    + split; [intros _ | reflexivity].
      exists i. repeat split; [lia | lia | assumption | lia | lia].
    + destruct (Js.lt (p !! i) (q !! i)) eqn:Hlt.
      * split; [discriminate|]. intros (k & Hk & Hgk & Hbefore).
        destruct (decide (k = i)) as [->|Hne]; [congruence|].
        destruct (Hbefore i) as [_ Hl]; [lia | congruence].
      * rewrite IH. split; intros (k & Hk & Hgk & Hbefore); exists k.
        -- repeat split; [lia | lia | assumption | |].
           all: destruct (decide (j = i)) as [->|Hne]; [assumption|];
             apply Hbefore; lia.
        -- destruct (decide (k = i)) as [->|Hne]; [congruence|].
           repeat split; [lia | lia | assumption | |]; apply Hbefore; lia.
Qed.

Lemma gt_component (r l : string) i :
  Js.gt (versionParts r !! i) (versionParts l !! i) = true <->
  exists x y, component r i = Some x /\ component l i = Some y /\ y < x.
Proof.
  unfold component, Js.gt, Js.toNumber.
  destruct (versionParts r !! i) as [[|x]|], (versionParts l !! i) as [[|y]|];
    try (split; [discriminate | intros (? & ? & ? & ? & _); discriminate]).
  rewrite Z.ltb_lt. split.
  - intros H. by exists x, y.
  - intros (x' & y' & [= <-] & [= <-] & H). exact H.
Qed.

Lemma undecided_component (r l : string) i :
  Js.gt (versionParts r !! i) (versionParts l !! i) = false /\
  Js.lt (versionParts r !! i) (versionParts l !! i) = false <->
  forall x y, component r i = Some x -> component l i = Some y -> x = y.
Proof.
  unfold component, Js.gt, Js.lt, Js.toNumber.
  destruct (versionParts r !! i) as [[|x]|], (versionParts l !! i) as [[|y]|];
    try (split; [intros _ ? ? ? ?; discriminate | intros _; split; reflexivity]).
  rewrite !Z.ltb_ge. split.
  - intros [H1 H2] x' y' [= <-] [= <-]. lia.
  - intros H. rewrite (H x y eq_refl eq_refl). lia.
Qed.

Lemma falsy_empty (s : string) : Js.falsy s = false <-> s <> "".
Proof. destruct s; simpl; split; congruence. Qed.

End Comparator.

Lemma isNewerVersion_true (remote local : string) :
  isNewerVersion remote local = true <->
  remote <> "" /\ local <> "" /\
  exists i, (i < 3)%nat /\
    (exists x y, component remote i = Some x /\
                 component local i = Some y /\ y < x) /\
    forall j, (j < i)%nat ->
      forall x y, component remote j = Some x ->
                  component local j = Some y -> x = y.
Proof.
  unfold isNewerVersion.
  destruct (Js.falsy remote) eqn:Hr; cbn [orb].
  { destruct remote; [|discriminate]. split; [discriminate | tauto]. }
  destruct (Js.falsy local) eqn:Hl; cbn [orb].
  { destruct local; [|discriminate]. split; [discriminate | tauto]. }
  apply falsy_empty in Hr, Hl. rewrite compareFrom_true. split.
  - intros (k & Hk & Hgt & Hbefore). repeat split; [assumption.. |].
    exists k. split; [lia|]. split; [by apply gt_component|].
    intros j Hj. apply undecided_component, Hbefore. lia.
  - intros (_ & _ & k & Hk & Hgt & Hbefore). exists k.
    split; [lia|]. split; [by apply gt_component|].
    intros j Hj. apply undecided_component, Hbefore. lia.
Qed.

Lemma isNewerVersion_refl (v : string) : isNewerVersion v v = false.
Proof.
  unfold isNewerVersion.
  destruct (Js.falsy v); [reflexivity | apply compareFrom_refl].
Qed.

(** ** Reading runs of digits *)

Lemma one_pos : 0 < Js.one.
Proof. unfold Js.one. apply Z.pow_pos_nonneg; lia. Qed.

(** A whole number up to [2^53] is a double: rounding leaves it as it
    is. *)
Lemma nearest_exact (n : Z) :
  0 <= n <= 2 ^ 53 -> Js.nearest (n * Js.one) 1 = n * Js.one.
Proof.
  intros [Hn0 Hn]. unfold Js.nearest. rewrite Z.div_1_r.
  destruct (Z.eq_dec n 0) as [->|Hnz]; [reflexivity|].
  assert (Hpos : 0 < n) by lia.
  pose proof one_pos as Hone.
  assert (Hone53 : 2 ^ 53 <= Js.one)
    by (unfold Js.one; apply Z.pow_le_mono_r; lia).
  assert (Hbig : 2 ^ 53 <= n * Js.one) by nia.
  destruct (n * Js.one <? 2 ^ 53) eqn:Hlt; [apply Z.ltb_lt in Hlt; lia|].
  clear Hlt Hbig.
  assert (Hlog : Z.log2 (n * Js.one) = Z.log2 n + 1074).
  { unfold Js.one. rewrite Z.log2_mul_pow2 by lia. lia. }
  rewrite Hlog.
  assert (Hl : 0 <= Z.log2 n <= 53).
  { split; [apply Z.log2_nonneg|].
    transitivity (Z.log2 (2 ^ 53)); [apply Z.log2_le_mono; lia|].
    rewrite Z.log2_pow2; lia. }
  set (s := Z.log2 n + 1074 - 52).
  assert (Hdiv : exists m, n * Js.one = m * 2 ^ s).
  { destruct (Z.eq_dec (Z.log2 n) 53) as [H53|H53].
    - assert (n = 2 ^ 53) as ->.
      { apply Z.le_antisymm; [exact Hn|].
        destruct (Z.log2_spec n Hpos) as [Hlow _]. by rewrite H53 in Hlow. }
      exists (2 ^ 52). subst s. rewrite Z.log2_pow2 by lia. unfold Js.one.
      rewrite <- !Z.pow_add_r by lia. f_equal.
    - exists (n * 2 ^ (52 - Z.log2 n)). subst s. unfold Js.one.
      rewrite <- Z.mul_assoc, <- Z.pow_add_r by lia. do 2 f_equal. lia. }
  destruct Hdiv as [m Hm].
  assert (Hs : 0 < 2 ^ s) by (apply Z.pow_pos_nonneg; subst s; lia).
  assert (Hq : (n * Js.one) / 2 ^ s = m) by (rewrite Hm; apply Z.div_mul; lia).
  assert (Hr : n * Js.one - m * 2 ^ s = 0) by lia.
  assert (Hinf : n * Js.one < Js.infinity).
  { assert (Js.infinity = 2 ^ 1024 * Js.one) as ->
      by (unfold Js.infinity, Js.one; rewrite <- Z.pow_add_r by lia; f_equal).
    assert (2 ^ 53 < 2 ^ 1024) by (apply Z.pow_lt_mono_r; lia). nia. }
  rewrite Z.mul_1_l, Hq, Hr, Z.mul_0_r.
  replace (2 ^ s <? 0) with false by (symmetry; apply Z.ltb_ge; lia).
  replace (2 ^ s =? 0) with false by (symmetry; apply Z.eqb_neq; lia).
  cbn [orb andb]. rewrite <- Hm.
  destruct (Js.infinity <=? n * Js.one) eqn:Hle; [apply Z.leb_le in Hle; lia|].
  reflexivity.
Qed.

Lemma gt_whole (a b : Z) :
  Js.gt (Some (Js.whole a)) (Some (Js.whole b)) = (b <? a).
Proof.
  pose proof one_pos. unfold Js.gt, Js.whole. cbn [Js.toNumber].
  destruct (Z.ltb_spec b a), (Z.ltb_spec (b * Js.one) (a * Js.one));
    try reflexivity; nia.
Qed.

Lemma lt_whole (a b : Z) :
  Js.lt (Some (Js.whole a)) (Some (Js.whole b)) = (a <? b).
Proof.
  pose proof one_pos. unfold Js.lt, Js.whole. cbn [Js.toNumber].
  destruct (Z.ltb_spec a b), (Z.ltb_spec (a * Js.one) (b * Js.one));
    try reflexivity; nia.
Qed.

Lemma digit_code (c : ascii) (d : Z) :
  Js.digit c = Some d -> 48 <= Z.of_nat (nat_of_ascii c) <= 57 /\ 0 <= d <= 9.
Proof.
  unfold Js.digit. cbv zeta.
  destruct (48 <=? Z.of_nat (nat_of_ascii c)) eqn:H1; [|discriminate].
  destruct (Z.of_nat (nat_of_ascii c) <=? 57) eqn:H2; [|discriminate].
  intros [= <-]. apply Z.leb_le in H1, H2. lia.
Qed.

Lemma digit_not (c other : ascii) :
  isDigit c = true -> isDigit other = false -> Ascii.eqb c other = false.
Proof.
  intros Hc Hother. destruct (Ascii.eqb_spec c other) as [->|]; congruence.
Qed.

Lemma digit_not_space (c : ascii) : isDigit c = true -> Js.isSpace c = false.
Proof.
  unfold isDigit. destruct (Js.digit c) as [d|] eqn:Hd; [|discriminate].
  intros _. apply digit_code in Hd as [Hcode _]. unfold Js.isSpace. cbv zeta.
  repeat match goal with
         | |- context [?a <=? ?b] => destruct (Z.leb_spec a b)
         | |- context [?a =? ?b] => destruct (Z.eqb_spec a b)
         end; try reflexivity; lia.
Qed.

Lemma digitRun_digits (l : list ascii) (acc count : Z) :
  forallb isDigit l = true -> 0 <= acc ->
  exists n, 0 <= n /\
    Js.digitRun Js.digit 10 acc count l = (n, count + Z.of_nat (length l), []).
Proof.
  revert acc count. induction l as [|c l IH]; intros acc count Hl Hacc.
  - exists acc. split; [exact Hacc|]. cbn. by rewrite Z.add_0_r.
  - cbn [forallb] in Hl. apply andb_true_iff in Hl as [Hc Hl].
    unfold isDigit in Hc. destruct (Js.digit c) as [d|] eqn:Hd; [|discriminate].
    pose proof (digit_code c d Hd) as [_ Hrange].
    destruct (IH (10 * acc + d) (count + 1) Hl) as (n & Hn & Hrun); [lia|].
    exists n. split; [exact Hn|]. cbn [Js.digitRun]. rewrite Hd, Hrun.
    do 2 f_equal. cbn [length]. lia.
Qed.

Lemma dropSpaces_digits (l : list ascii) :
  forallb isDigit l = true -> Js.dropSpaces l = l.
Proof.
  destruct l as [|c l]; [reflexivity|]. cbn [forallb Js.dropSpaces].
  intros [Hc _]%andb_true_iff. by rewrite (digit_not_space c Hc).
Qed.

Lemma forallb_rev {A : Type} (f : A -> bool) (l : list A) :
  forallb f (rev l) = forallb f l.
Proof.
  induction l as [|x l IH]; [reflexivity|].
  cbn [rev forallb]. rewrite forallb_app, IH. cbn [forallb].
  by rewrite andb_true_r, andb_comm.
Qed.

Lemma trim_digits (l : list ascii) : forallb isDigit l = true -> Js.trim l = l.
Proof.
  intros Hl. unfold Js.trim. rewrite (dropSpaces_digits l Hl).
  rewrite dropSpaces_digits by (by rewrite forallb_rev). apply rev_involutive.
Qed.

(** A non-empty run of decimal digits reads as the double nearest to the
    whole number it writes. *)
Lemma Number_digits (s : string) :
  allDigits s = true ->
  exists n, 0 <= n /\ wholeOf s = Some n /\
            Js.Number s = Js.Num (Js.scientific n 0).
Proof.
  unfold allDigits. intros [Hne Hl]%andb_true_iff.
  change (forallb isDigit (list_ascii_of_string s) = true) in Hl.
  destruct (digitRun_digits _ 0 0 Hl) as (n & Hn & Hrun); [lia|].
  exists n. split; [exact Hn|]. split; [unfold wholeOf; by rewrite Hrun|].
  unfold Js.Number. rewrite (trim_digits _ Hl).
  destruct (list_ascii_of_string s) as [|c l] eqn:Hs.
  { destruct s; discriminate. }
  cbn [forallb] in Hl. apply andb_true_iff in Hl as [Hc Hl].
  assert (Hplain : Js.nonDecimal (c :: l) = None).
  { unfold Js.nonDecimal. destruct l as [|c' l']; [reflexivity|].
    destruct (Ascii.eqb c "0"); [|reflexivity].
    cbn [forallb] in Hl. apply andb_true_iff in Hl as [Hc' _].
    unfold Js.radixOf.
    by rewrite !(digit_not c' _ Hc'). }
  rewrite Hplain. unfold Js.decimal, Js.signed.
  rewrite !(digit_not c _ Hc) by reflexivity.
  cbn [string_of_list_ascii String.eqb]. rewrite (digit_not c _ Hc) by reflexivity.
  unfold Js.unsignedDecimal. rewrite Hrun.
  cbn [length].
  destruct (0 + Z.of_nat (S (length l)) + 0 =? 0) eqn:Hzero;
    [apply Z.eqb_eq in Hzero; lia|].
  cbn [Js.exponentPart]. by rewrite Z.sub_0_r.
Qed.

(** Up to [2^53] the reading is exact. *)
Lemma Number_whole (s : string) (n : Z) :
  allDigits s = true -> wholeOf s = Some n -> n <= 2 ^ 53 ->
  Js.Number s = Js.whole n.
Proof.
  intros Hs Hwhole Hn.
  destruct (Number_digits s Hs) as (n' & Hn' & Hwhole' & ->).
  assert (n' = n) as -> by congruence.
  unfold Js.scientific, Js.whole. cbn [Z.leb Z.compare].
  by rewrite Z.pow_0_r, Z.mul_1_r, nearest_exact.
Qed.

Lemma validTriplet_split (v : string) :
  validTriplet v = true ->
  Js.falsy v = false /\
  exists a b c,
    Js.split "." v = [a; b; c] /\
    allDigits a = true /\ allDigits b = true /\ allDigits c = true.
Proof.
  unfold validTriplet. intros H. split.
  - destruct v; [discriminate H | reflexivity].
  - destruct (Js.split "." v) as [|a [|b [|c [|? ?]]]]; try discriminate.
    apply andb_true_iff in H as [[Ha Hb]%andb_true_iff Hc].
    by exists a, b, c.
Qed.

Lemma validTriplet_pieces (v : string) :
  validTriplet v = true ->
  Js.falsy v = false /\
  exists a b c x y z,
    Js.split "." v = [a; b; c] /\
    Js.Number a = Js.Num x /\ Js.Number b = Js.Num y /\ Js.Number c = Js.Num z.
Proof.
  intros (Hv & a & b & c & Hsplit & Ha & Hb & Hc)%validTriplet_split.
  split; [exact Hv|].
  destruct (Number_digits a Ha) as (x & _ & _ & Hx).
  destruct (Number_digits b Hb) as (y & _ & _ & Hy).
  destruct (Number_digits c Hc) as (z & _ & _ & Hz).
  by exists a, b, c, (Js.scientific x 0), (Js.scientific y 0),
            (Js.scientific z 0).
Qed.

Lemma withinPrecision_piece (piece : string) :
  allDigits piece = true ->
  match wholeOf piece with Some n => n <=? 2 ^ 53 | None => false end = true ->
  exists n, wholeOf piece = Some n /\ Js.Number piece = Js.whole n.
Proof.
  intros Hdigits Hwithin. destruct (wholeOf piece) as [n|] eqn:Hn; [|discriminate].
  apply Z.leb_le in Hwithin. exists n. split; [reflexivity|].
  by apply Number_whole.
Qed.

(** On dotted triplets whose components are at most [2^53] the loop is
    the comparison of three whole numbers. *)
Lemma isNewerVersion_on_triplets (remote local : string) :
  validTriplet remote = true -> validTriplet local = true ->
  withinPrecision remote = true -> withinPrecision local = true ->
  isNewerVersion remote local = isNewerSpec remote local.
Proof.
  intros (Hr & a & b & c & Hsplit & Ha & Hb & Hc)%validTriplet_split
         (Hl & a' & b' & c' & Hsplit' & Ha' & Hb' & Hc')%validTriplet_split.
  unfold withinPrecision. rewrite Hsplit, Hsplit'. cbn [forallb].
  intros [Pa [Pb [Pc _]%andb_true_iff]%andb_true_iff]%andb_true_iff
         [Pa' [Pb' [Pc' _]%andb_true_iff]%andb_true_iff]%andb_true_iff.
  destruct (withinPrecision_piece a Ha Pa) as (x & Wx & Nx).
  destruct (withinPrecision_piece b Hb Pb) as (y & Wy & Ny).
  destruct (withinPrecision_piece c Hc Pc) as (z & Wz & Nz).
  destruct (withinPrecision_piece a' Ha' Pa') as (x' & Wx' & Nx').
  destruct (withinPrecision_piece b' Hb' Pb') as (y' & Wy' & Ny').
  destruct (withinPrecision_piece c' Hc' Pc') as (z' & Wz' & Nz').
  unfold isNewerVersion, isNewerSpec, versionParts. rewrite Hr, Hl. cbn [orb].
  unfold specCompareFrom, componentOrZero. rewrite Hsplit, Hsplit'.
  cbn [map compareFrom lookup list_lookup].
  rewrite Nx, Ny, Nz, Nx', Ny', Nz', Wx, Wy, Wz, Wx', Wy', Wz'.
  rewrite !gt_whole, !lt_whole. reflexivity.
Qed.

(** C3 (as amended).  [isNewerVersion] answers [true] exactly when both
    strings are non-empty and, going through positions 0, 1 and 2, the
    first position at which both strings have a piece that reads as a
    number and the two numbers differ has the greater one in the remote
    string; full equality gives [false].  The pieces are read by
    [Number], so ["1e1.0.0"] is newer than ["9.0.0"], and they are
    doubles: when both strings are dotted triplets whose components are
    at most [2^53] this is the comparison of integers the specification
    words, and above it is not, ["1.0.9007199254740993"] and
    ["1.0.9007199254740992"] being the same version.  A missing
    component is not read as [0]: its position decides nothing, and
    ["1.0.1"] against ["1.0"] gives [false]. *)
Theorem isNewerVersion_first_decided_position :
  (forall remote local : string,
     isNewerVersion remote local = true <->
     remote <> "" /\ local <> "" /\
     exists i, (i < 3)%nat /\
       (exists x y, component remote i = Some x /\
                    component local i = Some y /\ y < x) /\
       forall j, (j < i)%nat ->
         forall x y, component remote j = Some x ->
                     component local j = Some y -> x = y) /\
  (forall v : string, isNewerVersion v v = false) /\
  (forall remote local : string,
     validTriplet remote = true -> validTriplet local = true ->
     withinPrecision remote = true -> withinPrecision local = true ->
     isNewerVersion remote local = isNewerSpec remote local) /\
  isNewerVersion "1.0.1" "1.0" = false /\
  isNewerVersion "1e1.0.0" "9.0.0" = true /\
  (validTriplet "1.0.9007199254740993" = true /\
   validTriplet "1.0.9007199254740992" = true /\
   isNewerSpec "1.0.9007199254740993" "1.0.9007199254740992" = true /\
   isNewerVersion "1.0.9007199254740993" "1.0.9007199254740992" = false).
Proof.
  split; [exact isNewerVersion_true|].
  split; [exact isNewerVersion_refl|].
  split; [exact isNewerVersion_on_triplets|].
  repeat split; vm_compute; reflexivity.
Qed.

Lemma isNewerVersion_first_decided_position_witness :
  validTriplet "1.0.5" = true /\ validTriplet "1.0.4" = true /\
  withinPrecision "1.0.5" = true /\ withinPrecision "1.0.4" = true /\
  isNewerVersion "1.0.5" "1.0.4" = isNewerSpec "1.0.5" "1.0.4".
Proof.
  split; [reflexivity|]. split; [reflexivity|].
  split; [reflexivity|]. split; [reflexivity|].
  destruct isNewerVersion_first_decided_position as (_ & _ & Htriplets & _).
  apply Htriplets; reflexivity.
Defined.

(** C3, counterexample.  With the missing third component of ["1.0"] read
    as [0], as the specification words it, ["1.0.1"] would be newer; the
    code answers [false]. *)
Lemma isNewerVersion_missing_component_not_zero :
  isNewerSpec "1.0.1" "1.0" = true /\ isNewerVersion "1.0.1" "1.0" = false.
Proof. split; vm_compute; reflexivity. Qed.

(** C5.  On dotted triplets the comparator is irreflexive, and no two
    distinct triplets are each newer than the other. *)
Theorem isNewerVersion_irreflexive_antisymmetric (a b : string) :
  validTriplet a = true -> validTriplet b = true ->
  (a = b -> isNewerVersion a b = false) /\
  (a <> b -> ~ (isNewerVersion a b = true /\ isNewerVersion b a = true)).
Proof.
  intros _ _. split.
  - intros <-. unfold isNewerVersion.
    destruct (Js.falsy a); [reflexivity | apply compareFrom_refl].
  - intros _ [Hab Hba]. unfold isNewerVersion in Hab, Hba.
    rewrite (orb_comm (Js.falsy b)) in Hba.
    destruct (Js.falsy a || Js.falsy b); [discriminate|].
    apply compareFrom_asym in Hab. congruence.
Qed.

Lemma isNewerVersion_irreflexive_antisymmetric_witness :
  validTriplet "1.0.5" = true /\ validTriplet "1.0.4" = true /\
  ("1.0.5" <> "1.0.4" ->
   ~ (isNewerVersion "1.0.5" "1.0.4" = true /\
      isNewerVersion "1.0.4" "1.0.5" = true)).
Proof.
  split; [reflexivity|]. split; [reflexivity|].
  apply (isNewerVersion_irreflexive_antisymmetric "1.0.5" "1.0.4");
    reflexivity.
Defined.


(** ** The checker *)

Lemma descriptor_eta (d : UpdateInfo) :
  {| version := version d; notes := notes d; url := url d;
     sessionKey := sessionKey d; updateType := updateType d;
     web_assets_url := web_assets_url d |} = d.
Proof. by destruct d. Qed.

Lemma fetches_snoc (w : World) (l : list effect) (rest : list effect) :
  l = (log w ++ EFetch :: rest)%list ->
  forallb (fun e => negb (isFetch e)) rest = true ->
  length (filter (fun e => isFetch e = true) l) = S (fetches w).
Proof.
  intros -> Hrest. unfold fetches. rewrite filter_app, length_app.
  rewrite filter_cons_True by reflexivity. cbn [length].
  assert (filter (fun e => isFetch e = true) rest = []) as ->.
  { induction rest as [|e rest IH]; [reflexivity|].
    cbn [forallb] in Hrest. apply andb_true_iff in Hrest as [He Hrest].
    rewrite filter_cons_False; [by apply IH|].
    by destruct (isFetch e). }
  cbn [length]. lia.
Qed.

Lemma checkForNewVersion_answer env w answer d :
  updaterService_fetchUpdateInfo env (log w) = Some answer ->
  firstDescriptor answer = Some d ->
  exists w1,
    Updater.checkForNewVersion env w =
      (Return (if isNewerVersion (version d) (localVersion env w (updateType d))
               then Some d else None), w1) /\
    dialogs w1 = dialogs w /\ fetches w1 = S (fetches w).
Proof.
  intros Hfetch Hfirst. unfold localVersion.
  unfold Updater.checkForNewVersion, Updater.narrow, Updater.getLocalVersion.
  exec. rewrite Hfetch.
  destruct answer as [|d'|[|d' ds]]; try discriminate;
    injection Hfirst as ->; exec;
    destruct (storage w !! Updater.versionKey (updateType d)) as [v|];
    try destruct (Js.falsy v); exec;
    destruct (isNewerVersion _ _); rewrite ?descriptor_eta;
    (eexists; split; [reflexivity|]; split; [reflexivity|]; cbn [log];
     eapply fetches_snoc; [rewrite <- ?app_assoc; cbn [app]; reflexivity
                          | reflexivity]).
Qed.



(** C6 (as amended).  A position at which either string has no piece that
    reads as a number is skipped, it does not decide the answer: when
    every position at which both strings have a number holds the same one
    in both, [isNewerVersion] answers [false], the check returns [null]
    without throwing and no consent dialog appears, as for ["1.a.0"]
    against ["1.0.0"].  Otherwise the first position at which both
    strings have a number and the two differ decides, whatever the
    skipped positions hold: the answer, on any two strings, is [true]
    exactly when the remote number is the greater one there, as for
    ["1.a.1"] against ["1.0.0"], and [false] when it is the smaller one,
    as for ["0.a.5"] against ["1.0.0"]. *)
Theorem isNewerVersion_skips_unparsed_position env w answer d :
  isAndroidApp env = true ->
  updaterService_fetchUpdateInfo env (log w) = Some answer ->
  firstDescriptor answer = Some d ->
  (forall i x y, (i < 3)%nat ->
     component (version d) i = Some x ->
     component (localVersion env w (updateType d)) i = Some y -> x = y) ->
  (isNewerVersion (version d) (localVersion env w (updateType d)) = false /\
   (Updater.checkForNewVersion env w).1 = Return None /\
   (Updater.checkForUpdates env w).1 = Return tt /\
   dialogs (Updater.checkForUpdates env w).2 = dialogs w) /\
  (forall remote local : string,
     isNewerVersion remote local = true <->
     remote <> "" /\ local <> "" /\
     exists i, (i < 3)%nat /\
       (exists x y, component remote i = Some x /\
                    component local i = Some y /\ y < x) /\
       forall j, (j < i)%nat ->
         forall x y, component remote j = Some x ->
                     component local j = Some y -> x = y) /\
  (component "1.a.1" 1 = None /\ isNewerVersion "1.a.1" "1.0.0" = true) /\
  (component "0.a.5" 1 = None /\ isNewerVersion "0.a.5" "1.0.0" = false).
Proof.
  intros Handroid Hfetch Hfirst Hsame.
  split; [|split; [exact isNewerVersion_true | by vm_compute]].
  assert (Hfalse :
    isNewerVersion (version d) (localVersion env w (updateType d)) = false).
  { destruct (isNewerVersion _ _) eqn:Hnewer; [|reflexivity].
    apply isNewerVersion_true in Hnewer
      as (_ & _ & i & Hi & (x & y & Hx & Hy & Hlt) & _).
    specialize (Hsame i x y Hi Hx Hy). lia. }
  destruct (checkForNewVersion_answer env w answer d Hfetch Hfirst)
    as (w1 & Hcheck & Hdialogs & _).
  rewrite Hfalse in Hcheck. split; [exact Hfalse|].
  unfold Updater.checkForUpdates. rewrite Handroid. cbn [negb].
  rewrite try_catch_unfold, bind_unfold, Hcheck. cbn [fst snd].
  by repeat split.
Qed.

Lemma isNewerVersion_skips_unparsed_position_witness :
  isNewerVersion "1.a.0" "1.0.0" = false /\
  (Updater.checkForNewVersion malformedRemote at100).1 = Return None /\
  (Updater.checkForUpdates malformedRemote at100).1 = Return tt /\
  dialogs (Updater.checkForUpdates malformedRemote at100).2 = [].
Proof.
  apply (isNewerVersion_skips_unparsed_position malformedRemote at100
           (OneObject malformed) malformed); try reflexivity.
  intros [|[|[|i]]] x y Hi; vm_compute; intros Hx Hy; try congruence; lia.
Defined.

(** C6, counterexample.  The second piece of ["1.a.1"] does not read as
    a number; the loop compares that position, finds neither side
    greater, moves on, and answers [true] at the third.  The same answer
    comes for ["2.a.0"], decided at the first position. *)
Lemma isNewerVersion_malformed_can_be_newer :
  versionParts "1.a.1" !! 1%nat = Some Js.NaN /\
  compareFrom 3 0 (versionParts "1.a.1") (versionParts "1.0.0")
    = compareFrom 1 2 (versionParts "1.a.1") (versionParts "1.0.0") /\
  isNewerVersion "1.a.1" "1.0.0" = true /\
  isNewerVersion "2.a.0" "1.0.0" = true.
Proof. repeat split; reflexivity. Qed.

Lemma checkForNewVersion_fails env w :
  checkFails env w ->
  Updater.checkForNewVersion env w =
    (Return None,
     {| storage := storage w; previousVersion := previousVersion w;
        dialogs := dialogs w; intervals := intervals w;
        log := log w ++ [EFetch; EConsoleError "Version check failed:"] |}).
Proof.
  intros [H|H]; unfold Updater.checkForNewVersion, Updater.narrow; exec;
    rewrite H; exec; rewrite <- app_assoc; reflexivity.
Qed.

(** C8.  When the remote collaborator fails, the check catches the error,
    writes it to the console and answers [null]; the coordinator returns
    normally, shows no dialog and changes nothing else; the next firing of
    the interval asks the remote again. *)
Theorem check_failure_is_no_update env w :
  isAndroidApp env = true ->
  checkFails env w ->
  let w' :=
    {| storage := storage w; previousVersion := previousVersion w;
       dialogs := dialogs w; intervals := intervals w;
       log := log w ++ [EFetch; EConsoleError "Version check failed:"] |} in
  Updater.checkForNewVersion env w = (Return None, w') /\
  Updater.checkForUpdates env w = (Return tt, w') /\
  (forall i, is_Some (intervals w' !! i) ->
     exists rest, log (step env w' (TimerTick i)) = (log w' ++ EFetch :: rest)%list).
Proof.
  intros Handroid Hfails w'.
  pose proof (checkForNewVersion_fails env w Hfails) as Hcheck.
  split; [exact Hcheck|]. split.
  - unfold Updater.checkForUpdates. rewrite Handroid. cbn [negb].
    rewrite try_catch_unfold, bind_unfold, Hcheck. reflexivity.
  - intros i [ms Hms]. cbn [step]. rewrite Hms.
    apply checkForUpdates_startsWith, Handroid.
Qed.

Lemma check_failure_is_no_update_witness :
  isAndroidApp offline = true /\ checkFails offline at104 /\
  Updater.checkForUpdates offline at104 =
    (Return tt,
     {| storage := storage at104; previousVersion := None; dialogs := [];
        intervals := [];
        log := [EFetch; EConsoleError "Version check failed:"] |}).
Proof.
  split; [reflexivity|]. split; [left; reflexivity|].
  apply (check_failure_is_no_update offline at104); [reflexivity|].
  left; reflexivity.
Defined.

(** ** The package applier *)

(** C9.  When the package artifact is not retrieved, [performUpdate]
    returns after showing the generic failure notice, which has no handler
    and so offers no retry; the installer is not opened, and neither the
    storage nor any other part of the state keeps anything of the
    download. *)
Theorem artifact_retrieval_failure env w info :
  isAndroidApp env = true ->
  retrievalFails env w info ->
  let w' := (ApkUpdater.performUpdate env info w).2 in
  (ApkUpdater.performUpdate env info w).1 = Return tt /\
  dialogs w' = (dialogs w ++ [apkFailureNotice])%list /\
  onOk apkFailureNotice = None /\ offersRetry apkFailureNotice = false /\
  storage w' = storage w /\ previousVersion w' = previousVersion w /\
  intervals w' = intervals w /\
  exists rest, log w' = (log w ++ rest)%list /\
               forallb (fun e => negb (isOpen e)) rest = true.
Proof.
  intros Handroid Hfails w'. subst w'.
  unfold ApkUpdater.performUpdate, ApkUpdater.fetchArtifact.
  rewrite Handroid. exec.
  assert (Hleaf : forall (l : list effect) rest,
    l = (log w ++ rest)%list ->
    forallb (fun e => negb (isOpen e)) rest = true ->
    exists rest, l = (log w ++ rest)%list /\
                 forallb (fun e => negb (isOpen e)) rest = true)
    by (intros l rest -> Hrest; by exists rest).
  match goal with
  | |- context [CapacitorHttp_get env ?h ?u] =>
      destruct (CapacitorHttp_get env h u) as [response|] eqn:Hget
  end; exec.
  - destruct (ApkUpdater.downloaded response) eqn:Hok; exec.
    + match goal with
      | |- context [Filesystem_writeFile env ?h ?p] =>
          destruct (Filesystem_writeFile env h p) eqn:Hwrite
      end; exec.
      * match goal with
        | |- context [Filesystem_getUri env ?h ?p] =>
            destruct (Filesystem_getUri env h p) as [uri|] eqn:Huri
        end; exec.
        -- exfalso. destruct Hfails as [H|r H H'|H|H];
             unfold atGetUri, atWriteFile, atHttpGet in H; congruence.
        -- repeat split; eapply Hleaf;
             [rewrite <- ?app_assoc; cbn [app]; reflexivity | reflexivity].
      * repeat split; eapply Hleaf;
          [rewrite <- ?app_assoc; cbn [app]; reflexivity | reflexivity].
    + repeat split; eapply Hleaf;
        [rewrite <- ?app_assoc; cbn [app]; reflexivity | reflexivity].
  - repeat split; eapply Hleaf;
      [rewrite <- ?app_assoc; cbn [app]; reflexivity | reflexivity].
Qed.

Lemma artifact_retrieval_failure_witness :
  isAndroidApp artifactMissing = true /\
  retrievalFails artifactMissing at104 package106 /\
  dialogs (ApkUpdater.performUpdate artifactMissing package106 at104).2
    = [apkFailureNotice].
Proof.
  split; [reflexivity|].
  assert (H : retrievalFails artifactMissing at104 package106)
    by (eapply BadResponse; reflexivity).
  split; [exact H|].
  apply (artifact_retrieval_failure artifactMissing at104 package106 eq_refl H).
Defined.

(** ** The asset applier and its rollback *)

Lemma falsy_false (s : string) : s <> "" -> Js.falsy s = false.
Proof. by destruct s. Qed.

(** C4 (as amended).  With a previous version in hand, [rollbackUpdate]
    first calls the revert primitive; when that succeeds it writes the
    previous version under the applier's own key ['appVersion'] and shows
    the dialog whose confirmation restarts the application; when the
    revert fails it writes nothing and tells the user to restart by hand.
    Either way it returns normally and the record under ['assetsVersion'],
    which the checker reads, is left as it was. *)
Theorem rollbackUpdate_writes_applier_record env w previous :
  isAndroidApp env = true ->
  previousVersion w = Some previous ->
  previous <> "" ->
  let w' := (AssetsUpdater.rollbackUpdate env w).2 in
  (AssetsUpdater.rollbackUpdate env w).1 = Return tt /\
  storage w' !! Updater.VERSION_KEYS_assets
    = storage w !! Updater.VERSION_KEYS_assets /\
  (forall w0, log (runHandler env (onOk rolledBackDialog) w0).2
                = (log w0 ++ [EReload])%list) /\
  if CapacitorUpdater_reset env (log w ++ [ELoadingShow "Rolling back update..."])
  then
    log w' = (log w ++ [ELoadingShow "Rolling back update..."; EReset;
                        ESetItem "appVersion" previous; ELoadingHide;
                        EDialog rolledBackDialog])%list /\
    storage w' = <["appVersion" := previous]> (storage w) /\
    dialogs w' = (dialogs w ++ [rolledBackDialog])%list
  else
    log w' = (log w ++ [ELoadingShow "Rolling back update..."; EReset;
                        ELoadingHide; EConsoleError "Rollback failed:";
                        EDialog rollbackFailureNotice])%list /\
    storage w' = storage w /\
    dialogs w' = (dialogs w ++ [rollbackFailureNotice])%list.
Proof.
  intros Handroid Hprevious Hne w'. subst w'.
  unfold AssetsUpdater.rollbackUpdate, AssetsUpdater.setLocalVersion.
  rewrite Handroid. exec. rewrite Hprevious.
  cbn [missing default]. rewrite (falsy_false _ Hne).
  destruct (CapacitorUpdater_reset env _); exec;
    rewrite <- ?app_assoc; cbn [app];
    (split; [reflexivity|]); (split; [|by repeat split]).
  - by rewrite lookup_insert_ne.
  - reflexivity.
Qed.

Lemma rollbackUpdate_writes_applier_record_witness :
  isAndroidApp activationFails = true /\
  previousVersion diverged = Some "1.0.4" /\
  storage (AssetsUpdater.rollbackUpdate activationFails diverged).2
    !! Updater.VERSION_KEYS_assets
  = storage diverged !! Updater.VERSION_KEYS_assets.
Proof.
  split; [reflexivity|]. split; [reflexivity|].
  apply (rollbackUpdate_writes_applier_record activationFails diverged "1.0.4");
    [reflexivity | reflexivity | discriminate].
Defined.

(** The storage of [diverged] is what an accepted bundle offer whose
    download fails leaves behind when both records held 1.0.4. *)
Lemma diverged_is_reachable :
  let w0 := start (<["assetsVersion" := "1.0.4"]> (<["appVersion" := "1.0.4"]> ∅)) in
  let w1 := (Updater.checkForUpdates downloadFails w0).2 in
  storage (step downloadFails w1 (ClickOk 0)) = storage diverged.
Proof. vm_compute. reflexivity. Qed.

(** C4, counterexample.  The revert succeeds and the previous version is
    1.0.4, yet after the rollback the record the checker reads still
    holds 1.0.5: the only write went to ['appVersion']. *)
Lemma rollbackUpdate_leaves_checker_record :
  let w' := (AssetsUpdater.rollbackUpdate activationFails diverged).2 in
  previousVersion diverged = Some "1.0.4" /\
  log w' = [ELoadingShow "Rolling back update..."; EReset;
            ESetItem "appVersion" "1.0.4"; ELoadingHide;
            EDialog rolledBackDialog] /\
  storage w' !! Updater.versionKey "assets" = Some "1.0.5" /\
  storage w' !! Updater.versionKey "assets" <> Some "1.0.4".
Proof. vm_compute. repeat split; discriminate. Qed.

Section Frame.
Variable env : Env.
Variable key : string.
Hypothesis other : AssetsUpdater.APP_VERSION_KEY <> key.

Lemma setLocalVersion_frame v :
  preserves (sameItem key) (AssetsUpdater.setLocalVersion v).
Proof. unfold AssetsUpdater.setLocalVersion. walk item_leaf. Qed.

#[local] Hint Resolve setLocalVersion_frame : engine.

Lemma rollbackUpdate_frame :
  preserves (sameItem key) (AssetsUpdater.rollbackUpdate env).
Proof. unfold AssetsUpdater.rollbackUpdate. walk item_leaf. Qed.

#[local] Hint Resolve rollbackUpdate_frame : engine.

Lemma applyUpdate_frame b :
  preserves (sameItem key) (AssetsUpdater.applyUpdate env b).
Proof. unfold AssetsUpdater.applyUpdate. walk item_leaf. Qed.

#[local] Hint Resolve applyUpdate_frame : engine.

Lemma performUpdate_frame info :
  preserves (sameItem key) (AssetsUpdater.performUpdate env info).
Proof.
  unfold AssetsUpdater.performUpdate, AssetsUpdater.downloadUpdate,
    AssetsUpdater.getLocalVersion.
  walk item_leaf.
Qed.

End Frame.

Lemma performUpdate_captures_appVersion env info w b :
  isAndroidApp env = true ->
  CapacitorUpdater_download env (log w ++ [ELoadingShow "Downloading update..."])
    (version info) (url info) = Some b ->
  previousVersion (AssetsUpdater.performUpdate env info w).2
    = Some (appVersion env w).
Proof.
  intros Handroid Hdownload.
  unfold AssetsUpdater.performUpdate, AssetsUpdater.downloadUpdate,
    AssetsUpdater.getLocalVersion, AssetsUpdater.applyUpdate,
    AssetsUpdater.rollbackUpdate, AssetsUpdater.setLocalVersion, appVersion.
  rewrite Handroid. exec. rewrite Hdownload. exec.
  destruct (storage w !! AssetsUpdater.APP_VERSION_KEY) as [v|];
    cbn [missing]; try destruct (Js.falsy v); exec;
    destruct (CapacitorUpdater_set env _ b); exec; try reflexivity;
    cbn [missing]; destruct (Js.falsy _); exec; try reflexivity;
    destruct (CapacitorUpdater_reset env _); reflexivity.
Qed.



(** ** The coordinator *)

Lemma run_total {A : Type} (m : M A) (w : World) :
  total m -> exists a w1, m w = (Return a, w1).
Proof.
  intros Hm. destruct (Hm w) as [a Ha]. destruct (m w) as [r w1].
  cbn [fst] in Ha. subst r. by exists a, w1.
Qed.

Lemma initialize_arms_one_interval env w :
  isAndroidApp env = true ->
  (forall h, CapacitorUpdater_notifyAppReady env h = true) ->
  intervals (Updater.initialize env w).2 = (intervals w ++ [1800000])%list.
Proof.
  intros Handroid Hready. unfold Updater.initialize. rewrite Handroid.
  cbn [negb]. rewrite bind_unfold.
  pose proof (initializeVersions_sameIntervals env w) as H1.
  destruct (run_total _ w (initializeVersions_total env)) as ([] & w1 & Hw1).
  rewrite Hw1 in H1 |- *. cbn [snd] in H1.
  rewrite bind_unfold. unfold call at 1, succeeds. rewrite Hready.
  rewrite bind_unfold.
  pose proof (checkForUpdates_sameIntervals env (record ENotifyAppReady w1)) as H2.
  destruct (run_total _ (record ENotifyAppReady w1) (checkForUpdates_total env))
    as ([] & w2 & Hw2).
  rewrite Hw2 in H2 |- *. cbn [snd] in H2.
  unfold setInterval. cbn [snd intervals].
  unfold sameIntervals in *. rewrite H2. cbn [record intervals]. by rewrite H1.
Qed.




(** C1, at the failing input.  The bundle track is on record at 1.0.4,
    the remote offers 1.0.5 and the user accepts.  Whether the download
    fails, or the activation fails and is rolled back, the coordinator
    then records 1.0.5; the same happens on the package track when the
    artifact request answers 404.  A declined offer leaves the record.
    In general the callback of an accepted offer always ends with the
    descriptor's version on record. *)
Theorem failed_update_is_recorded_as_applied :
  (let w1 := (Updater.checkForUpdates downloadFails at104).2 in
   let w2 := step downloadFails w1 (ClickOk 0) in
   storage w1 !! "assetsVersion" = Some "1.0.4" /\
   log w2 = (log w1 ++ [ELoadingShow "Downloading update...";
                        EDownload "1.0.5" "https://updates.example/1.0.5.zip";
                        ELoadingHide;
                        EConsoleError "Failed to download update:";
                        ESetItem "assetsVersion" "1.0.5"])%list /\
   storage w2 !! "assetsVersion" = Some "1.0.5") /\
  (let w1 := (Updater.checkForUpdates activationFails at104).2 in
   let w2 := step activationFails w1 (ClickOk 0) in
   storage w1 !! "assetsVersion" = Some "1.0.4" /\
   In (EDialog rolledBackDialog) (log w2) /\
   storage w2 !! "assetsVersion" = Some "1.0.5") /\
  (let w1 := (Updater.checkForUpdates artifactMissing at104).2 in
   let w2 := step artifactMissing w1 (ClickOk 0) in
   storage w1 !! "apkVersion" = Some "1.0.4" /\
   In (EDialog apkFailureNotice) (log w2) /\
   storage w2 !! "apkVersion" = Some "1.0.6") /\
  (let w1 := (Updater.checkForUpdates downloadFails at104).2 in
   let w2 := step downloadFails w1 (ClickCancel 0) in
   storage w2 = storage w1) /\
  (forall env info w,
     storage (Updater.onUpdateAccepted env info w).2
       !! Updater.versionKey (updateType info) = Some (version info)).
Proof.
  cbv zeta.
  repeat (split; [first [vm_compute; reflexivity | vm_compute; tauto]|]).
  exact onUpdateAccepted_records.
Qed.

(** * The rest of the code *)

(** ** The version store: [getLocalVersion], [updateLocalVersion],
       [initializeVersions] *)

Lemma baseline_nonempty env : Js.falsy (baseline env) = false.
Proof.
  unfold baseline. destruct (APP_VERSION env) as [v|]; [|reflexivity].
  destruct (Js.falsy v) eqn:Hv; [reflexivity | exact Hv].
Qed.

Lemma versionKey_eq (t t' : string) :
  String.eqb t "apk" = String.eqb t' "apk" ->
  Updater.versionKey t = Updater.versionKey t'.
Proof. unfold Updater.versionKey. by intros ->. Qed.

Lemma versionKey_ne (t t' : string) :
  String.eqb t "apk" <> String.eqb t' "apk" ->
  Updater.versionKey t <> Updater.versionKey t'.
Proof.
  unfold Updater.versionKey.
  destruct (String.eqb t "apk"), (String.eqb t' "apk"); intros H; try done.
Qed.

Lemma getLocalVersion_stored env t w v :
  storage w !! Updater.versionKey t = Some v -> v <> "" ->
  Updater.getLocalVersion env t w = (Return v, w).
Proof.
  intros Hv Hne. unfold Updater.getLocalVersion. exec. rewrite Hv.
  rewrite (falsy_false _ Hne). by destruct w.
Qed.

(** X1.  A version written with [updateLocalVersion] is what
    [getLocalVersion] then answers for every update type kept under the
    same key, that is for ['apk'] if the write was for ['apk'] and for any
    other type if it was not; the read changes nothing, and the write
    leaves the record of the other track alone. *)
Theorem updateLocalVersion_then_getLocalVersion env t t' v w :
  v <> "" ->
  let w1 := (Updater.updateLocalVersion t v w).2 in
  (Updater.updateLocalVersion t v w).1 = Return tt /\
  (String.eqb t "apk" = String.eqb t' "apk" ->
   Updater.getLocalVersion env t' w1 = (Return v, w1)) /\
  (String.eqb t "apk" <> String.eqb t' "apk" ->
   storage w1 !! Updater.versionKey t' = storage w !! Updater.versionKey t').
Proof.
  intros Hne w1. subst w1. split; [reflexivity|]. split.
  - intros Hsame. apply getLocalVersion_stored; [|exact Hne].
    unfold Updater.updateLocalVersion. exec.
    rewrite (versionKey_eq _ _ Hsame). apply lookup_insert_eq.
  - intros Hother. unfold Updater.updateLocalVersion. exec.
    apply lookup_insert_ne. by apply versionKey_ne.
Qed.

Lemma updateLocalVersion_then_getLocalVersion_witness :
  "1.0.5" <> "" /\
  Updater.getLocalVersion offline "bundle"
    (Updater.updateLocalVersion "assets" "1.0.5" at104).2
  = (Return "1.0.5", (Updater.updateLocalVersion "assets" "1.0.5" at104).2).
Proof.
  split; [discriminate|].
  apply (updateLocalVersion_then_getLocalVersion offline "assets" "bundle"
           "1.0.5" at104); [discriminate | reflexivity].
Defined.

Lemma getLocalVersion_missing env t w :
  missing (storage w !! Updater.versionKey t) = true ->
  Updater.getLocalVersion env t w =
    (Return (baseline env),
     {| storage := <[Updater.versionKey t := baseline env]> (storage w);
        previousVersion := previousVersion w; dialogs := dialogs w;
        intervals := intervals w;
        log := log w ++ [ESetItem (Updater.versionKey t) (baseline env)] |}).
Proof.
  intros Hmissing. unfold Updater.getLocalVersion. exec.
  destruct (storage w !! Updater.versionKey t) as [v|]; cbn [missing] in Hmissing;
    [rewrite Hmissing|]; reflexivity.
Qed.

(** X2.  When the record of a track is absent or empty,
    [getLocalVersion] answers the build's baseline, which is never empty,
    and stores it under the track's key. *)
Theorem getLocalVersion_bootstraps env t w :
  missing (storage w !! Updater.versionKey t) = true ->
  let w1 := (Updater.getLocalVersion env t w).2 in
  (Updater.getLocalVersion env t w).1 = Return (baseline env) /\
  baseline env <> "" /\
  storage w1 = <[Updater.versionKey t := baseline env]> (storage w) /\
  log w1 = (log w ++ [ESetItem (Updater.versionKey t) (baseline env)])%list.
Proof.
  intros Hmissing w1. subst w1. rewrite (getLocalVersion_missing env t w Hmissing).
  repeat split. apply falsy_empty, baseline_nonempty.
Qed.

Lemma getLocalVersion_bootstraps_witness :
  missing (storage at100 !! Updater.versionKey "apk") = true /\
  (Updater.getLocalVersion offline "apk" at100).1 = Return "1.0.0".
Proof.
  split; [reflexivity|].
  apply (getLocalVersion_bootstraps offline "apk" at100). reflexivity.
Defined.

(** X3.  [getLocalVersion] never throws, and reading again gives the same
    version without touching anything: after the first read the record is
    there. *)
Theorem getLocalVersion_idempotent env t w :
  exists v w1,
    Updater.getLocalVersion env t w = (Return v, w1) /\
    v <> "" /\
    storage w1 !! Updater.versionKey t = Some v /\
    Updater.getLocalVersion env t w1 = (Return v, w1).
Proof.
  destruct (missing (storage w !! Updater.versionKey t)) eqn:Hmissing.
  - rewrite (getLocalVersion_missing env t w Hmissing).
    assert (Hbase : baseline env <> "")
      by apply falsy_empty, baseline_nonempty.
    eexists _, _. split; [reflexivity|]. split; [exact Hbase|].
    assert (Hlookup :
      <[Updater.versionKey t := baseline env]> (storage w)
        !! Updater.versionKey t = Some (baseline env))
      by apply lookup_insert_eq.
    split; [exact Hlookup|]. by apply getLocalVersion_stored.
  - destruct (storage w !! Updater.versionKey t) as [v|] eqn:Hv;
      [|discriminate]. cbn [missing] in Hmissing.
    apply falsy_empty in Hmissing. exists v, w.
    rewrite (getLocalVersion_stored env t w v Hv Hmissing). by repeat split.
Qed.

Lemma initializeVersions_spec env w :
  let w1 := (Updater.initializeVersions env w).2 in
  (Updater.initializeVersions env w).1 = Return tt /\
  missing (storage w1 !! Updater.VERSION_KEYS_apk) = false /\
  missing (storage w1 !! Updater.VERSION_KEYS_assets) = false /\
  (forall key v, storage w !! key = Some v -> v <> "" ->
                 storage w1 !! key = Some v) /\
  Updater.initializeVersions env w1 = (Return tt, w1).
Proof.
  pose proof (baseline_nonempty env) as Hbase.
  assert (Hne : Updater.VERSION_KEYS_apk <> Updater.VERSION_KEYS_assets)
    by discriminate.
  assert (Hkept : forall key v (m : gmap string string) k,
    (missing (storage w !! k) = true) ->
    storage w !! key = Some v -> v <> "" -> m !! key = Some v ->
    <[k := baseline env]> m !! key = Some v).
  { intros key v m k Hk Hv Hnonempty Hm.
    destruct (decide (k = key)) as [->|?]; [|by rewrite lookup_insert_ne].
    rewrite Hv in Hk. cbn [missing] in Hk.
    apply falsy_false in Hnonempty. congruence. }
  unfold Updater.initializeVersions. exec.
  destruct (missing (storage w !! Updater.VERSION_KEYS_apk)) eqn:Hapk; exec;
    rewrite ?lookup_insert_eq, ?lookup_insert_ne by done;
    destruct (missing (storage w !! Updater.VERSION_KEYS_assets)) eqn:Hassets;
    exec;
    repeat (progress (cbn [storage missing];
                      rewrite ?lookup_insert_eq, ?lookup_insert_ne by done;
                      rewrite ?Hbase, ?Hapk, ?Hassets));
    (split; [reflexivity|]); (split; [reflexivity|]); (split; [reflexivity|]);
    (split; [|first [reflexivity | by destruct w]]);
    intros key v Hv Hnonempty; eauto.
Qed.

(** X4.  [initializeVersions] never throws; after it both tracks have a
    non-empty record; a record that was there and non-empty is kept as it
    was; and running it again changes nothing. *)
Theorem initializeVersions_bootstraps_once env w :
  let w1 := (Updater.initializeVersions env w).2 in
  (Updater.initializeVersions env w).1 = Return tt /\
  missing (storage w1 !! Updater.VERSION_KEYS_apk) = false /\
  missing (storage w1 !! Updater.VERSION_KEYS_assets) = false /\
  (forall key v, storage w !! key = Some v -> v <> "" ->
                 storage w1 !! key = Some v) /\
  Updater.initializeVersions env w1 = (Return tt, w1).
Proof. exact (initializeVersions_spec env w). Qed.

(** ** The platform gate *)

Lemma step_nothing_open env w ev :
  dialogs w = [] -> intervals w = [] -> step env w ev = w.
Proof. intros Hd Hi. destruct ev as [i|i|i]; cbn [step]; by rewrite ?Hd, ?Hi. Qed.

Lemma run_nothing_open env w evs :
  dialogs w = [] -> intervals w = [] -> run env w evs = w.
Proof.
  intros Hd Hi. unfold run. induction evs as [|ev evs IH]; [reflexivity|].
  cbn [fold_left]. by rewrite step_nothing_open.
Qed.

(** X5.  On a platform other than Android the updater is inert:
    [initialize], [checkForUpdates], [promptForUpdate] and the appliers
    return at once and leave the world as it is, so that after
    [initialize] no dialog is on screen, no interval is armed, and no
    later event changes anything. *)
Theorem updater_disabled_off_android env w :
  isAndroidApp env = false ->
  Updater.initialize env w = (Return tt, w) /\
  Updater.checkForUpdates env w = (Return tt, w) /\
  (forall info, Updater.promptForUpdate env info w = (Return tt, w)) /\
  (forall info, ApkUpdater.performUpdate env info w = (Return tt, w)) /\
  (forall info, AssetsUpdater.performUpdate env info w = (Return tt, w)) /\
  (forall info, AssetsUpdater.downloadUpdate env info w = (Return None, w)) /\
  (forall b, AssetsUpdater.applyUpdate env b w = (Return tt, w)) /\
  AssetsUpdater.rollbackUpdate env w = (Return tt, w) /\
  (forall evs, dialogs w = [] -> intervals w = [] ->
     run env (Updater.initialize env w).2 evs = w).
Proof.
  intros Hplatform.
  assert (Hinit : Updater.initialize env w = (Return tt, w))
    by (unfold Updater.initialize; by rewrite Hplatform).
  repeat split; try exact Hinit;
    try (intros; unfold Updater.checkForUpdates, Updater.promptForUpdate,
           ApkUpdater.performUpdate, AssetsUpdater.performUpdate,
           AssetsUpdater.downloadUpdate, AssetsUpdater.applyUpdate;
         by rewrite Hplatform).
  - unfold AssetsUpdater.rollbackUpdate. exec. by rewrite Hplatform.
  - intros evs Hd Hi. rewrite Hinit. by apply run_nothing_open.
Qed.

Lemma updater_disabled_off_android_witness :
  isAndroidApp browser = false /\
  Updater.initialize browser at104 = (Return tt, at104) /\
  Updater.checkForUpdates browser at104 = (Return tt, at104).
Proof.
  split; [reflexivity|].
  pose proof (updater_disabled_off_android browser at104 eq_refl)
    as (Hinit & Hcheck & _).
  split; [exact Hinit | exact Hcheck].
Defined.

(** ** One check *)

Lemma filter_no_fetch (rest : list effect) :
  forallb (fun e => negb (isFetch e)) rest = true ->
  filter (fun e => isFetch e = true) rest = [].
Proof.
  induction rest as [|e rest IH]; [reflexivity|].
  cbn [forallb]. intros [He Hrest]%andb_true_iff.
  rewrite filter_cons_False; [by apply IH|]. by destruct (isFetch e).
Qed.

Lemma fetches_same (w w' : World) (rest : list effect) :
  log w' = (log w ++ rest)%list ->
  forallb (fun e => negb (isFetch e)) rest = true ->
  fetches w' = fetches w.
Proof.
  intros Hlog Hrest. unfold fetches.
  rewrite Hlog, filter_app, length_app, (filter_no_fetch rest Hrest).
  cbn [length]. lia.
Qed.

(** What a check comes to, by the remote's answer. *)
Lemma checkForUpdates_outcome env w :
  isAndroidApp env = true ->
  exists w',
    Updater.checkForUpdates env w = (Return tt, w') /\
    fetches w' = S (fetches w) /\
    previousVersion w' = previousVersion w /\
    intervals w' = intervals w /\
    dialogs w' =
      match updaterService_fetchUpdateInfo env (log w) ≫= firstDescriptor with
      | Some d =>
          if isNewerVersion (version d) (localVersion env w (updateType d))
          then (dialogs w ++ [consentDialog d])%list
          else dialogs w
      | None => dialogs w
      end.
Proof.
  intros Handroid. unfold Updater.checkForUpdates. rewrite Handroid. cbn [negb].
  rewrite try_catch_unfold, bind_unfold.
  destruct (updaterService_fetchUpdateInfo env (log w)) as [answer|] eqn:Hfetch.
  - change (Some answer ≫= firstDescriptor) with (firstDescriptor answer).
    destruct (firstDescriptor answer) as [d|] eqn:Hfirst.
    + destruct (checkForNewVersion_answer env w answer d Hfetch Hfirst)
        as (w1 & Hcheck & Hdialogs & Hcount).
      rewrite Hcheck.
      assert (Hsame : previousVersion w1 = previousVersion w /\
                      intervals w1 = intervals w).
      { pose proof (f_equal snd Hcheck) as Hw1. cbn [snd] in Hw1. subst w1.
        clear Hcheck Hdialogs Hcount.
        unfold Updater.checkForNewVersion, Updater.narrow,
          Updater.getLocalVersion. exec. rewrite Hfetch.
        destruct answer as [|d'|[|d' ds]]; try discriminate;
          injection Hfirst as ->; exec;
          destruct (storage w !! Updater.versionKey (updateType d)) as [v|];
          try destruct (Js.falsy v); exec;
          destruct (isNewerVersion _ _); by split. }
      destruct Hsame as [Hprevious Hintervals].
      destruct (isNewerVersion _ _).
      * unfold Updater.promptForUpdate. rewrite Handroid. cbn [negb].
        fold (consentDialog d). exec. eexists. split; [reflexivity|].
        cbn [previousVersion intervals dialogs]. rewrite Hdialogs.
        repeat split; try assumption.
        rewrite <- Hcount. by eapply fetches_same.
      * exists w1. by repeat split.
    + destruct answer as [|d|[|d ds]]; try discriminate.
      * unfold Updater.checkForNewVersion. exec. rewrite Hfetch. exec.
        eexists. split; [reflexivity|]. repeat split.
        by eapply fetches_snoc.
      * rewrite (checkForNewVersion_fails env w) by (right; exact Hfetch).
        eexists. split; [reflexivity|]. repeat split.
        by eapply fetches_snoc.
  - rewrite (checkForNewVersion_fails env w) by (left; exact Hfetch).
    eexists. split; [reflexivity|]. repeat split.
    by eapply fetches_snoc.
Qed.

(** X6.  On Android a check never throws, whatever the remote answers,
    and it asks the remote exactly once; it leaves the armed intervals
    and the applier's previous version as they are. *)
Theorem checkForUpdates_asks_once env w :
  isAndroidApp env = true ->
  let w' := (Updater.checkForUpdates env w).2 in
  (Updater.checkForUpdates env w).1 = Return tt /\
  fetches w' = S (fetches w) /\
  previousVersion w' = previousVersion w /\
  intervals w' = intervals w.
Proof.
  intros Handroid.
  destruct (checkForUpdates_outcome env w Handroid)
    as (w' & -> & Hcount & Hprevious & Hintervals & _).
  by repeat split.
Qed.

Lemma checkForUpdates_asks_once_witness :
  isAndroidApp offline = true /\
  fetches (Updater.checkForUpdates offline at104).2 = 1%nat.
Proof.
  split; [reflexivity|].
  apply (checkForUpdates_asks_once offline at104). reflexivity.
Defined.

(** X7.  A check opens a consent dialog exactly when the remote's answer
    narrows to a descriptor whose version [isNewerVersion] finds newer
    than the record of its track; it then opens one dialog, which carries
    that descriptor.  In every other case (no answer, no data, an empty
    array, a version that is not newer) the dialogs are as before. *)
Theorem checkForUpdates_prompts_iff_newer env w :
  isAndroidApp env = true ->
  dialogs (Updater.checkForUpdates env w).2 =
    match updaterService_fetchUpdateInfo env (log w) ≫= firstDescriptor with
    | Some d =>
        if isNewerVersion (version d) (localVersion env w (updateType d))
        then (dialogs w ++ [consentDialog d])%list
        else dialogs w
    | None => dialogs w
    end.
Proof.
  intros Handroid.
  by destruct (checkForUpdates_outcome env w Handroid)
    as (w' & -> & _ & _ & _ & Hdialogs).
Qed.

Lemma checkForUpdates_prompts_iff_newer_witness :
  isAndroidApp downloadFails = true /\
  dialogs (Updater.checkForUpdates downloadFails at104).2
    = [consentDialog bundle105].
Proof.
  split; [reflexivity|].
  apply (checkForUpdates_prompts_iff_newer downloadFails at104). reflexivity.
Defined.

(** ** Start-up *)

Lemma initializeVersions_run env w :
  exists w1,
    Updater.initializeVersions env w = (Return tt, w1) /\
    dialogs w1 = dialogs w /\ intervals w1 = intervals w /\
    previousVersion w1 = previousVersion w /\ fetches w1 = fetches w.
Proof.
  unfold Updater.initializeVersions. exec.
  destruct (missing (storage w !! Updater.VERSION_KEYS_apk)); exec;
    match goal with
    | |- context [missing ?x] => destruct (missing x)
    end; exec;
    (eexists; split; [reflexivity|]; repeat split;
     try (eapply fetches_same;
          [cbn [log]; rewrite <- ?app_assoc; reflexivity | reflexivity])).
Qed.

(** X8.  On Android [initialize] first gives both tracks a record and
    then reports to the bundle delivery.  If that report is rejected,
    [initialize] throws: no check is made and no interval is armed.
    Otherwise it returns after exactly one check and arms one interval of
    30 minutes. *)
Theorem initialize_outcome env w :
  isAndroidApp env = true ->
  let w1 := (Updater.initializeVersions env w).2 in
  let w' := (Updater.initialize env w).2 in
  if CapacitorUpdater_notifyAppReady env (log w1)
  then (Updater.initialize env w).1 = Return tt /\
       fetches w' = S (fetches w) /\
       intervals w' = (intervals w ++ [30 * 60 * 1000])%list
  else (Updater.initialize env w).1
         = Throw "CapacitorUpdater.notifyAppReady failed" /\
       fetches w' = fetches w /\
       intervals w' = intervals w /\ dialogs w' = dialogs w.
Proof.
  intros Handroid w1 w'. subst w1 w'.
  unfold Updater.initialize. rewrite Handroid. cbn [negb].
  rewrite bind_unfold.
  destruct (initializeVersions_run env w)
    as (w1 & -> & Hdialogs & Hintervals & Hprevious & Hcount).
  cbn [snd]. rewrite bind_unfold. unfold call, succeeds.
  destruct (CapacitorUpdater_notifyAppReady env (log w1)).
  - rewrite bind_unfold.
    destruct (checkForUpdates_outcome env (record ENotifyAppReady w1) Handroid)
      as (w2 & -> & Hcount2 & _ & Hintervals2 & _).
    unfold setInterval. cbn [fst snd intervals].
    split; [reflexivity|]. split.
    + transitivity (fetches w2);
        [by eapply fetches_same; [cbn [log]; reflexivity|]|].
      rewrite Hcount2, <- Hcount. f_equal.
      by eapply fetches_same; [unfold record; cbn [log]; reflexivity|].
    + rewrite Hintervals2. cbn [record intervals]. by rewrite Hintervals.
  - cbn [fst snd]. repeat split; try assumption.
    rewrite <- Hcount. by eapply fetches_same.
Qed.

Lemma initialize_outcome_witness :
  isAndroidApp downloadFails = true /\
  (Updater.initialize downloadFails at104).1 = Return tt /\
  fetches (Updater.initialize downloadFails at104).2 = 1%nat /\
  intervals (Updater.initialize downloadFails at104).2 = [1800000].
Proof.
  split; [reflexivity|].
  apply (initialize_outcome downloadFails at104 eq_refl).
Defined.

(** ** The asset applier, path by path *)

Lemma appVersion_nonempty env w : Js.falsy (appVersion env w) = false.
Proof.
  unfold appVersion.
  destruct (storage w !! AssetsUpdater.APP_VERSION_KEY) as [v|];
    [destruct (Js.falsy v) eqn:Hv; [|exact Hv]|]; apply baseline_nonempty.
Qed.

Lemma assets_getLocalVersion_run env w :
  AssetsUpdater.getLocalVersion env w = (Return (appVersion env w), w).
Proof.
  unfold AssetsUpdater.getLocalVersion, appVersion. exec.
  destruct (storage w !! AssetsUpdater.APP_VERSION_KEY) as [v|]; cbn [missing];
    [destruct (Js.falsy v)|]; reflexivity.
Qed.

Ltac asset_paths :=
  unfold AssetsUpdater.performUpdate, AssetsUpdater.downloadUpdate,
    AssetsUpdater.applyUpdate, AssetsUpdater.rollbackUpdate,
    AssetsUpdater.setLocalVersion,
    atReset, atSet, atDownload in *.

(** X9.  When the bundle download is rejected, [performUpdate] returns
    normally after writing the error to the console: nothing is stored, no
    previous version is captured, nothing is activated or reverted, and no
    dialog tells the user. *)
Theorem bundle_download_failure env info w :
  isAndroidApp env = true ->
  CapacitorUpdater_download env (atDownload w) (version info) (url info) = None ->
  AssetsUpdater.performUpdate env info w =
    (Return tt,
     {| storage := storage w; previousVersion := previousVersion w;
        dialogs := dialogs w; intervals := intervals w;
        log := log w ++ [ELoadingShow "Downloading update...";
                         EDownload (version info) (url info);
                         ELoadingHide;
                         EConsoleError "Failed to download update:"] |}).
Proof.
  intros Handroid Hdownload. asset_paths.
  rewrite Handroid. exec. rewrite Hdownload. exec.
  rewrite <- !app_assoc. reflexivity.
Qed.

Lemma bundle_download_failure_witness :
  isAndroidApp downloadFails = true /\
  dialogs (AssetsUpdater.performUpdate downloadFails bundle105 at104).2 = [] /\
  storage (AssetsUpdater.performUpdate downloadFails bundle105 at104).2
    = storage at104.
Proof.
  split; [reflexivity|].
  rewrite (bundle_download_failure downloadFails bundle105 at104 eq_refl eq_refl).
  split; reflexivity.
Defined.

(** X10.  When the bundle downloads and activates, [performUpdate]
    captures the applier's current version as the previous one, stores
    the version the downloaded bundle reports under ['appVersion'], and
    shows the dialog whose confirmation reloads the page; the reload keeps
    the storage and drops the dialogs, the intervals and the captured
    previous version. *)
Theorem bundle_update_success env info w b :
  isAndroidApp env = true ->
  CapacitorUpdater_download env (atDownload w) (version info) (url info) = Some b ->
  CapacitorUpdater_set env (atSet w info) b = true ->
  AssetsUpdater.performUpdate env info w =
    (Return tt,
     {| storage := <[AssetsUpdater.APP_VERSION_KEY := bundle_version b]> (storage w);
        previousVersion := Some (appVersion env w);
        dialogs := dialogs w ++ [updateSuccessfulDialog];
        intervals := intervals w;
        log := atSet w info ++
               [ESet b; ESetItem AssetsUpdater.APP_VERSION_KEY (bundle_version b);
                ELoadingHide; EDialog updateSuccessfulDialog] |}) /\
  (forall w0,
     runHandler env (onOk updateSuccessfulDialog) w0 =
       (Return tt,
        {| storage := storage w0; previousVersion := None; dialogs := [];
           intervals := []; log := log w0 ++ [EReload] |})).
Proof.
  intros Handroid Hdownload Hset. split; [|reflexivity].
  asset_paths. rewrite Handroid. exec. rewrite Hdownload. exec.
  rewrite assets_getLocalVersion_run. exec. rewrite Hset. exec.
  rewrite <- !app_assoc. reflexivity.
Qed.

Lemma bundle_update_success_witness :
  let env := device (Some (OneObject bundle105))
                    (Some {| bundle_id := "b1"; bundle_version := "1.0.5" |})
                    true true None in
  isAndroidApp env = true /\
  storage (AssetsUpdater.performUpdate env bundle105 at104).2
    !! AssetsUpdater.APP_VERSION_KEY = Some "1.0.5" /\
  previousVersion (AssetsUpdater.performUpdate env bundle105 at104).2
    = Some "1.0.0".
Proof.
  cbv zeta. split; [reflexivity|].
  destruct (bundle_update_success
              (device (Some (OneObject bundle105))
                      (Some {| bundle_id := "b1"; bundle_version := "1.0.5" |})
                      true true None)
              bundle105 at104 {| bundle_id := "b1"; bundle_version := "1.0.5" |}
              eq_refl eq_refl eq_refl) as [-> _].
  split; reflexivity.
Defined.

(** X11.  When the bundle downloads and its activation is rejected,
    [performUpdate] reverts.  If the revert succeeds, ['appVersion'] ends
    with the version the applier read before activating (the baseline when
    it had none) and the only dialog added is the one announcing the
    rollback; if the revert is rejected, the storage is as before and the
    only dialog added asks for a manual restart.  In both cases
    [performUpdate] returns normally. *)
Theorem bundle_activation_failure env info w b :
  isAndroidApp env = true ->
  CapacitorUpdater_download env (atDownload w) (version info) (url info) = Some b ->
  CapacitorUpdater_set env (atSet w info) b = false ->
  AssetsUpdater.performUpdate env info w =
    if CapacitorUpdater_reset env (atReset w info b)
    then
      (Return tt,
       {| storage := <[AssetsUpdater.APP_VERSION_KEY := appVersion env w]> (storage w);
          previousVersion := Some (appVersion env w);
          dialogs := dialogs w ++ [rolledBackDialog];
          intervals := intervals w;
          log := atReset w info b ++
                 [EReset; ESetItem AssetsUpdater.APP_VERSION_KEY (appVersion env w);
                  ELoadingHide; EDialog rolledBackDialog] |})
    else
      (Return tt,
       {| storage := storage w;
          previousVersion := Some (appVersion env w);
          dialogs := dialogs w ++ [rollbackFailureNotice];
          intervals := intervals w;
          log := atReset w info b ++
                 [EReset; ELoadingHide; EConsoleError "Rollback failed:";
                  EDialog rollbackFailureNotice] |}).
Proof.
  intros Handroid Hdownload Hset.
  asset_paths. rewrite Handroid. exec. rewrite Hdownload. exec.
  rewrite assets_getLocalVersion_run. exec. rewrite Hset. exec.
  cbn [missing]. rewrite appVersion_nonempty.
  destruct (CapacitorUpdater_reset env _); exec;
    rewrite <- !app_assoc; reflexivity.
Qed.

Lemma bundle_activation_failure_witness :
  isAndroidApp activationFails = true /\
  dialogs (AssetsUpdater.performUpdate activationFails bundle105 at104).2
    = [rolledBackDialog] /\
  storage (AssetsUpdater.performUpdate activationFails bundle105 at104).2
    !! AssetsUpdater.APP_VERSION_KEY = Some "1.0.0".
Proof.
  split; [reflexivity|].
  rewrite (bundle_activation_failure activationFails bundle105 at104
             {| bundle_id := "b1"; bundle_version := "1.0.5" |}
             eq_refl eq_refl eq_refl).
  split; reflexivity.
Defined.

Lemma bundle_paths_no_download env info w :
  isAndroidApp env = true ->
  CapacitorUpdater_download env (atDownload w) (version info) (url info) = None ->
  exists rest,
    log (AssetsUpdater.performUpdate env info w).2 = (log w ++ rest)%list /\
    existsb isReset rest = false.
Proof.
  intros Handroid Hdownload. asset_paths.
  rewrite Handroid. exec. rewrite Hdownload. exec.
  eexists. split; [rewrite <- !app_assoc; reflexivity | reflexivity].
Qed.

Lemma bundle_paths_success env info w b :
  isAndroidApp env = true ->
  CapacitorUpdater_download env (atDownload w) (version info) (url info) = Some b ->
  CapacitorUpdater_set env (atSet w info) b = true ->
  exists rest,
    log (AssetsUpdater.performUpdate env info w).2 = (log w ++ rest)%list /\
    existsb isReset rest = false.
Proof.
  intros Handroid Hdownload Hset. asset_paths.
  rewrite Handroid. exec. rewrite Hdownload. exec.
  rewrite assets_getLocalVersion_run. exec. rewrite Hset. exec.
  eexists. split; [rewrite <- !app_assoc; reflexivity | reflexivity].
Qed.

Lemma bundle_paths_failure env info w b :
  isAndroidApp env = true ->
  CapacitorUpdater_download env (atDownload w) (version info) (url info) = Some b ->
  CapacitorUpdater_set env (atSet w info) b = false ->
  exists rest,
    log (AssetsUpdater.performUpdate env info w).2 = (log w ++ rest)%list /\
    existsb isReset rest = true.
Proof.
  intros Handroid Hdownload Hset. asset_paths.
  rewrite Handroid. exec. rewrite Hdownload. exec.
  rewrite assets_getLocalVersion_run. exec. rewrite Hset. exec.
  cbn [missing]. rewrite appVersion_nonempty.
  destruct (CapacitorUpdater_reset env _); exec;
    (eexists; split; [rewrite <- !app_assoc; reflexivity | reflexivity]).
Qed.

(** X12.  [performUpdate] calls the revert primitive exactly when a
    downloaded bundle failed to activate; and [rollbackUpdate] called
    with no previous version captured does nothing at all. *)
Theorem revert_only_after_failed_activation env info w :
  (exists rest,
     log (AssetsUpdater.performUpdate env info w).2 = (log w ++ rest)%list /\
     (existsb isReset rest = true <->
      isAndroidApp env = true /\
      exists b,
        CapacitorUpdater_download env (atDownload w) (version info) (url info)
          = Some b /\
        CapacitorUpdater_set env (atSet w info) b = false)) /\
  (missing (previousVersion w) = true ->
   AssetsUpdater.rollbackUpdate env w = (Return tt, w)).
Proof.
  split.
  - destruct (isAndroidApp env) eqn:Handroid.
    + destruct (CapacitorUpdater_download env (atDownload w) (version info)
                  (url info)) as [b|] eqn:Hdownload.
      * destruct (CapacitorUpdater_set env (atSet w info) b) eqn:Hset.
        -- destruct (bundle_paths_success env info w b Handroid Hdownload Hset)
             as [rest [-> Hrest]].
           exists rest. split; [reflexivity|]. rewrite Hrest.
           split; [discriminate|]. intros (_ & b' & [= <-] & Hset').
           congruence.
        -- destruct (bundle_paths_failure env info w b Handroid Hdownload Hset)
             as [rest [-> Hrest]].
           exists rest. split; [reflexivity|]. rewrite Hrest.
           split; [|reflexivity]. intros _. split; [reflexivity|]. by exists b.
      * destruct (bundle_paths_no_download env info w Handroid Hdownload)
          as [rest [-> Hrest]].
        exists rest. split; [reflexivity|]. rewrite Hrest.
        split; [discriminate|]. intros (_ & b' & Hb & _). congruence.
    + exists []. split.
      * unfold AssetsUpdater.performUpdate. rewrite Handroid. cbn [negb].
        by rewrite app_nil_r.
      * cbn [existsb]. split; [discriminate|]. intros [H _]. discriminate.
  - intros Hmissing. unfold AssetsUpdater.rollbackUpdate. exec.
    rewrite Hmissing, orb_true_r. reflexivity.
Qed.

Lemma revert_only_after_failed_activation_witness :
  missing (previousVersion at104) = true /\
  AssetsUpdater.rollbackUpdate activationFails at104 = (Return tt, at104).
Proof.
  split; [reflexivity|].
  apply (revert_only_after_failed_activation activationFails bundle105 at104).
  reflexivity.
Defined.

(** ** The package applier, path by path *)

Lemma launchInstaller_run env uri info w :
  ApkUpdater.launchInstaller env uri info w =
    if FileOpener_open env (atOpen w) uri apkContentType
    then
      (Return tt,
       {| storage := storage w; previousVersion := previousVersion w;
          dialogs := dialogs w ++ [installationDialog uri info];
          intervals := intervals w;
          log := atOpen w ++ [EOpen uri apkContentType; ELoadingHide;
                              EDialog (installationDialog uri info)] |})
    else
      (Return tt,
       {| storage := storage w; previousVersion := previousVersion w;
          dialogs := dialogs w ++ [retryDialog uri info];
          intervals := intervals w;
          log := atOpen w ++ [EOpen uri apkContentType; ELoadingHide;
                              EConsoleError "Failed to launch installer:";
                              EDialog (retryDialog uri info)] |}).
Proof.
  unfold ApkUpdater.launchInstaller, ApkUpdater.offerRetryInstallation,
    atOpen, apkContentType.
  fold (installationDialog uri info). fold (retryDialog uri info). exec.
  destruct (FileOpener_open env _ uri _); exec;
    rewrite <- !app_assoc; reflexivity.
Qed.

(** X13.  When the artifact is retrieved (a 200 with a body, written to
    the cache and located), [performUpdate] opens it with the installer's
    content type.  If the installer opens, the dialog announcing the
    installation is shown; if it does not, the retry dialog is shown.  In
    both cases [performUpdate] returns normally and the generic failure
    notice is not shown. *)
Theorem package_artifact_retrieved env info w response uri :
  isAndroidApp env = true ->
  CapacitorHttp_get env (atHttpGet w) (url info) = Some response ->
  ApkUpdater.downloaded response = true ->
  Filesystem_writeFile env (atWriteFile w info) "update.apk" = true ->
  Filesystem_getUri env (atGetUri w info) "update.apk" = Some uri ->
  ApkUpdater.performUpdate env info w =
    if FileOpener_open env (atLaunch w info) uri apkContentType
    then
      (Return tt,
       {| storage := storage w; previousVersion := previousVersion w;
          dialogs := dialogs w ++ [installationDialog uri info];
          intervals := intervals w;
          log := atLaunch w info ++
                 [EOpen uri apkContentType; ELoadingHide;
                  EDialog (installationDialog uri info)] |})
    else
      (Return tt,
       {| storage := storage w; previousVersion := previousVersion w;
          dialogs := dialogs w ++ [retryDialog uri info];
          intervals := intervals w;
          log := atLaunch w info ++
                 [EOpen uri apkContentType; ELoadingHide;
                  EConsoleError "Failed to launch installer:";
                  EDialog (retryDialog uri info)] |}).
Proof.
  intros Handroid Hget Hok Hwrite Huri.
  unfold ApkUpdater.performUpdate, ApkUpdater.fetchArtifact.
  unfold atLaunch, atGetUri, atWriteFile, atHttpGet in *.
  rewrite Handroid. exec. rewrite Hget. exec. rewrite Hok. exec.
  rewrite Hwrite. exec. rewrite Huri. exec.
  rewrite launchInstaller_run. unfold atOpen. cbn [log].
  destruct (FileOpener_open env _ uri apkContentType); reflexivity.
Qed.

Lemma package_artifact_retrieved_witness :
  let env := device (Some (OneObject package106)) None true true
                    (Some {| status := 200; data := Some "apk" |}) in
  isAndroidApp env = true /\
  dialogs (ApkUpdater.performUpdate env package106 at104).2
    = [installationDialog "file:///cache/update.apk" package106].
Proof.
  cbv zeta. split; [reflexivity|].
  rewrite (package_artifact_retrieved
             (device (Some (OneObject package106)) None true true
                     (Some {| status := 200; data := Some "apk" |}))
             package106 at104 {| status := 200; data := Some "apk" |}
             "file:///cache/update.apk" eq_refl eq_refl eq_refl eq_refl eq_refl).
  reflexivity.
Defined.

(** X14.  Confirming the retry dialog opens the artifact already in the
    cache again, at the same location: the only collaborator called is
    the installer, nothing is requested or written, and the outcome is
    again either the installation dialog or a new retry dialog. *)
Theorem retry_reopens_cached_artifact env w i uri info :
  dialogs w !! i = Some (retryDialog uri info) ->
  let w0 := close i w in
  step env w (ClickOk i) =
    if FileOpener_open env (atOpen w) uri apkContentType
    then
      {| storage := storage w; previousVersion := previousVersion w;
         dialogs := dialogs w0 ++ [installationDialog uri info];
         intervals := intervals w;
         log := atOpen w ++ [EOpen uri apkContentType; ELoadingHide;
                             EDialog (installationDialog uri info)] |}
    else
      {| storage := storage w; previousVersion := previousVersion w;
         dialogs := dialogs w0 ++ [retryDialog uri info];
         intervals := intervals w;
         log := atOpen w ++ [EOpen uri apkContentType; ELoadingHide;
                             EConsoleError "Failed to launch installer:";
                             EDialog (retryDialog uri info)] |}.
Proof.
  intros Hdialog w0. subst w0. cbn [step]. rewrite Hdialog.
  cbn [onOk retryDialog runHandler]. rewrite launchInstaller_run.
  unfold atOpen, close. cbn [log].
  destruct (FileOpener_open env _ uri apkContentType); reflexivity.
Qed.

Lemma retry_reopens_cached_artifact_witness :
  let w := (ApkUpdater.offerRetryInstallation "file:///cache/update.apk"
              package106 at104).2 in
  dialogs w !! 0%nat = Some (retryDialog "file:///cache/update.apk" package106) /\
  log (step artifactMissing w (ClickOk 0)) =
    (log w ++ [ELoadingShow "Installing APK...";
               EOpen "file:///cache/update.apk" apkContentType; ELoadingHide;
               EDialog (installationDialog "file:///cache/update.apk" package106)])%list.
Proof.
  cbv zeta. split; [reflexivity|].
  rewrite (retry_reopens_cached_artifact artifactMissing
             (ApkUpdater.offerRetryInstallation "file:///cache/update.apk"
                package106 at104).2
             0 "file:///cache/update.apk" package106 eq_refl).
  reflexivity.
Defined.

(** X15.  Confirming the dialog that announces the installation always
    brings up the retry dialog, titled Installation Failed, for the same
    artifact, without consulting any collaborator; cancelling a retry
    dialog closes it and does nothing else. *)
Theorem installation_dialog_leads_to_retry env w i uri info :
  (dialogs w !! i = Some (installationDialog uri info) ->
   step env w (ClickOk i) =
     {| storage := storage w; previousVersion := previousVersion w;
        dialogs := dialogs (close i w) ++ [retryDialog uri info];
        intervals := intervals w;
        log := log w ++ [EDialog (retryDialog uri info)] |}) /\
  (dialogs w !! i = Some (retryDialog uri info) ->
   step env w (ClickCancel i) = close i w).
Proof.
  repeat split; intros Hdialog; cbn [step]; rewrite Hdialog; reflexivity.
Qed.

Lemma installation_dialog_leads_to_retry_witness :
  let w := (Dialog.create (installationDialog "u" package106) at104).2 in
  dialogs w !! 0%nat = Some (installationDialog "u" package106) /\
  dialogs (step offline w (ClickOk 0)) = [retryDialog "u" package106].
Proof.
  cbv zeta. split; [reflexivity|].
  destruct (installation_dialog_leads_to_retry offline
              (Dialog.create (installationDialog "u" package106) at104).2
              0 "u" package106) as [Hok _].
  rewrite (Hok eq_refl). reflexivity.
Defined.

(** ** What the appliers and the coordinator leave alone *)

#[global] Instance sameRecords_preorder : PreOrder sameRecords.
Proof.
  split.
  - intros w. by repeat split.
  - intros w1 w2 w3 (H1 & H2 & H3) (H4 & H5 & H6). unfold sameRecords.
    repeat split; congruence.
Qed.

Ltac records_leaf :=
  intros ?; exec; repeat case_match; by repeat split.

Lemma launchInstaller_sameRecords env uri info :
  preserves sameRecords (ApkUpdater.launchInstaller env uri info).
Proof.
  unfold ApkUpdater.launchInstaller, ApkUpdater.offerRetryInstallation.
  walk records_leaf.
Qed.

#[local] Hint Resolve launchInstaller_sameRecords : engine.

Lemma apk_performUpdate_sameRecords env info :
  preserves sameRecords (ApkUpdater.performUpdate env info).
Proof.
  unfold ApkUpdater.performUpdate, ApkUpdater.fetchArtifact,
    ApkUpdater.offerRetryInstallation.
  walk records_leaf.
Qed.

(** X16.  The package applier never touches the storage: whatever the
    collaborators answer, [performUpdate] and [launchInstaller] leave
    every stored item, the asset applier's previous version and the armed
    intervals as they were.  The record of the package track is written
    by the coordinator only. *)
Theorem package_applier_stores_nothing env info uri w :
  sameRecords w (ApkUpdater.performUpdate env info w).2 /\
  sameRecords w (ApkUpdater.launchInstaller env uri info w).2 /\
  sameRecords w (ApkUpdater.offerRetryInstallation uri info w).2.
Proof.
  split; [apply apk_performUpdate_sameRecords|].
  split; [apply launchInstaller_sameRecords|]. by repeat split.
Qed.

(** ** Invariants of every run *)

Section Runs.
Variable env : Env.
Context (R : World -> World -> Prop) `{!PreOrder R}.
Hypothesis check_R : preserves R (Updater.checkForUpdates env).
Hypothesis handler_R : forall h, preserves R (runHandler env h).
Hypothesis close_R : forall i w, R w (close i w).

Lemma step_preserved w ev : R w (step env w ev).
Proof.
  destruct ev as [i|i|i]; cbn [step].
  - destruct (intervals w !! i); [apply check_R | reflexivity].
  - destruct (dialogs w !! i) as [d|]; [|reflexivity].
    etransitivity; [apply (close_R i) | apply handler_R].
  - destruct (dialogs w !! i) as [d|]; [|reflexivity].
    destruct (cancel d); [|reflexivity].
    etransitivity; [apply (close_R i) | apply handler_R].
Qed.

Lemma run_preserved w evs : R w (run env w evs).
Proof.
  unfold run. revert w. induction evs as [|ev evs IH]; intros w;
    cbn [fold_left]; [reflexivity|].
  etransitivity; [apply step_preserved | apply IH].
Qed.

End Runs.

Section OtherKeys.
Variable env : Env.
Variable key : string.
Hypothesis not_apk : Updater.VERSION_KEYS_apk <> key.
Hypothesis not_assets : Updater.VERSION_KEYS_assets <> key.
Hypothesis not_app : AssetsUpdater.APP_VERSION_KEY <> key.

Lemma versionKey_other t : Updater.versionKey t <> key.
Proof. unfold Updater.versionKey. by destruct (String.eqb t "apk"). Qed.

Ltac other_leaf :=
  intros ?; exec; repeat case_match; unfold sameItem; cbn [snd storage];
  first [ reflexivity
        | rewrite lookup_insert_ne; [reflexivity | auto using versionKey_other] ].

Lemma initializeVersions_other :
  preserves (sameItem key) (Updater.initializeVersions env).
Proof. unfold Updater.initializeVersions. walk other_leaf. Qed.

Lemma checkForUpdates_other :
  preserves (sameItem key) (Updater.checkForUpdates env).
Proof.
  unfold Updater.checkForUpdates, Updater.checkForNewVersion,
    Updater.promptForUpdate, Updater.getLocalVersion, Updater.narrow.
  walk other_leaf.
Qed.

Lemma apk_performUpdate_other info :
  preserves (sameItem key) (ApkUpdater.performUpdate env info).
Proof.
  intros w. destruct (apk_performUpdate_sameRecords env info w) as [H _].
  unfold sameItem. by rewrite H.
Qed.

Lemma launchInstaller_other uri info :
  preserves (sameItem key) (ApkUpdater.launchInstaller env uri info).
Proof.
  intros w. destruct (launchInstaller_sameRecords env uri info w) as [H _].
  unfold sameItem. by rewrite H.
Qed.

Lemma onUpdateAccepted_other info :
  preserves (sameItem key) (Updater.onUpdateAccepted env info).
Proof.
  pose proof (apk_performUpdate_other info).
  pose proof (performUpdate_frame env key not_app info).
  unfold Updater.onUpdateAccepted, Updater.updateLocalVersion.
  walk other_leaf.
Qed.

Lemma runHandler_other h : preserves (sameItem key) (runHandler env h).
Proof.
  destruct h as [[info| | |uri info|uri info]|]; cbn [runHandler].
  - apply onUpdateAccepted_other.
  - by intros w.
  - by intros w.
  - by intros w.
  - apply launchInstaller_other.
  - by intros w.
Qed.

Lemma initialize_other : preserves (sameItem key) (Updater.initialize env).
Proof.
  pose proof initializeVersions_other. pose proof checkForUpdates_other.
  unfold Updater.initialize. walk other_leaf.
Qed.

End OtherKeys.

(** X17.  The engine writes under three keys only.  An item stored under
    any key other than ['apkVersion'], ['assetsVersion'] and
    ['appVersion'] is the same after [initialize] and after any sequence
    of interval firings and clicks, whatever the collaborators answer. *)
Theorem only_three_keys_written env w evs key :
  key <> "apkVersion" -> key <> "assetsVersion" -> key <> "appVersion" ->
  storage (Updater.initialize env w).2 !! key = storage w !! key /\
  storage (run env w evs) !! key = storage w !! key.
Proof.
  intros Hapk Hassets Happ.
  assert (H1 : Updater.VERSION_KEYS_apk <> key) by (intros <-; by apply Hapk).
  assert (H2 : Updater.VERSION_KEYS_assets <> key)
    by (intros <-; by apply Hassets).
  assert (H3 : AssetsUpdater.APP_VERSION_KEY <> key)
    by (intros <-; by apply Happ).
  split.
  - by apply initialize_other.
  - apply (run_preserved env (sameItem key)).
    + by apply checkForUpdates_other.
    + intros h. by apply runHandler_other.
    + by intros i w0.
Qed.

Lemma only_three_keys_written_witness :
  let w := start (<["app_token" := "secret"]> ∅) in
  "app_token" <> "apkVersion" /\
  storage (run activationFails (Updater.initialize activationFails w).2
             [ClickOk 0; TimerTick 0; ClickCancel 1])
    !! "app_token" = Some "secret".
Proof.
  cbv zeta. split; [discriminate|].
  destruct (only_three_keys_written activationFails
              (Updater.initialize activationFails
                 (start (<["app_token" := "secret"]> ∅))).2
              [ClickOk 0; TimerTick 0; ClickCancel 1] "app_token")
    as [_ Hrun]; [discriminate..|].
  rewrite Hrun.
  destruct (only_three_keys_written activationFails
              (start (<["app_token" := "secret"]> ∅)) [] "app_token")
    as [Hinit _]; [discriminate..|].
  rewrite Hinit. reflexivity.
Defined.

(** ** What the engine reads of a descriptor *)

(** X18.  The asset applier reads nothing of a descriptor but its
    [version] and its [url]: two descriptors that agree on these, whatever
    their [web_assets_url], [sessionKey], [notes] and [updateType], are
    applied in exactly the same way. *)
Theorem asset_applier_reads_version_and_url env info info' w :
  version info = version info' -> url info = url info' ->
  AssetsUpdater.performUpdate env info w = AssetsUpdater.performUpdate env info' w.
Proof.
  intros Hversion Hurl.
  unfold AssetsUpdater.performUpdate, AssetsUpdater.downloadUpdate.
  by rewrite Hversion, Hurl.
Qed.

Lemma asset_applier_reads_version_and_url_witness :
  let other :=
    {| version := "1.0.5"; notes := Some "n";
       url := "https://updates.example/1.0.5.zip"; sessionKey := "t";
       updateType := "apk"; web_assets_url := "https://elsewhere.example/" |} in
  AssetsUpdater.performUpdate activationFails bundle105 at104
  = AssetsUpdater.performUpdate activationFails other at104.
Proof.
  cbv zeta.
  apply (asset_applier_reads_version_and_url activationFails bundle105); reflexivity.
Defined.

(** ** The accepted and the declined offer *)

Lemma applier_total env info : total (applier env info).
Proof.
  unfold applier. destruct (String.eqb (updateType info) "apk");
    [apply apk_performUpdate_total | apply assets_performUpdate_total].
Qed.

Lemma onUpdateAccepted_run env info w :
  exists w1,
    applier env info w = (Return tt, w1) /\
    Updater.onUpdateAccepted env info w =
      (Return tt,
       {| storage := <[Updater.versionKey (updateType info) := version info]>
                       (storage w1);
          previousVersion := previousVersion w1; dialogs := dialogs w1;
          intervals := intervals w1;
          log := log w1 ++ [ESetItem (Updater.versionKey (updateType info))
                                     (version info)] |}).
Proof.
  destruct (run_total _ w (applier_total env info)) as ([] & w1 & Hw1).
  exists w1. split; [exact Hw1|].
  unfold Updater.onUpdateAccepted. fold (applier env info).
  rewrite try_catch_unfold, bind_unfold, Hw1. reflexivity.
Qed.

(** X19.  The appliers never throw, so the failure dialog of the consent
    callback is never shown: once an offer is accepted, the callback runs
    the applier of the descriptor's track and then always writes the
    descriptor's version under the key of that track, as its last
    effect, and returns. *)
Theorem accepted_offer_outcome env info w :
  exists w1,
    applier env info w = (Return tt, w1) /\
    Updater.onUpdateAccepted env info w =
      (Return tt,
       {| storage := <[Updater.versionKey (updateType info) := version info]>
                       (storage w1);
          previousVersion := previousVersion w1; dialogs := dialogs w1;
          intervals := intervals w1;
          log := log w1 ++ [ESetItem (Updater.versionKey (updateType info))
                                     (version info)] |}).
Proof. exact (onUpdateAccepted_run env info w). Qed.

(** X20.  Declining an offer closes the consent dialog and does nothing
    else: no effect, no write.  Nothing remembers the refusal, so the next
    check decides as the one before did and offers the same descriptor
    again if the remote still answers it. *)
Theorem declined_offer_is_forgotten env w i info :
  isAndroidApp env = true ->
  dialogs w !! i = Some (consentDialog info) ->
  let w1 := step env w (ClickCancel i) in
  w1 = close i w /\
  dialogs (Updater.checkForUpdates env w1).2 =
    match updaterService_fetchUpdateInfo env (log w) ≫= firstDescriptor with
    | Some d =>
        if isNewerVersion (version d) (localVersion env w (updateType d))
        then (dialogs w1 ++ [consentDialog d])%list
        else dialogs w1
    | None => dialogs w1
    end.
Proof.
  intros Handroid Hdialog w1.
  assert (Hw1 : w1 = close i w)
    by (subst w1; cbn [step]; by rewrite Hdialog).
  split; [exact Hw1|].
  destruct (checkForUpdates_outcome env w1 Handroid)
    as (w' & -> & _ & _ & _ & Hdialogs).
  cbn [snd]. rewrite Hdialogs, Hw1. reflexivity.
Qed.

Lemma declined_offer_is_forgotten_witness :
  let w := (Updater.checkForUpdates downloadFails at104).2 in
  isAndroidApp downloadFails = true /\
  dialogs w !! 0%nat = Some (consentDialog bundle105) /\
  dialogs (step downloadFails w (ClickCancel 0)) = [] /\
  dialogs (Updater.checkForUpdates downloadFails
             (step downloadFails w (ClickCancel 0))).2
    = [consentDialog bundle105].
Proof.
  cbv zeta. split; [reflexivity|]. split; [reflexivity|].
  destruct (declined_offer_is_forgotten downloadFails
              (Updater.checkForUpdates downloadFails at104).2 0 bundle105
              eq_refl eq_refl) as [Hclosed Hagain].
  split; [by rewrite Hclosed | by rewrite Hagain].
Defined.

(** ** The comparator on versions with three numbers *)

Lemma triple_components (v : string) (x y z : Z) :
  triple v = Some (x, y, z) ->
  component v 0 = Some x /\ component v 1 = Some y /\ component v 2 = Some z /\
  v <> "".
Proof.
  unfold triple. intros H.
  destruct (component v 0) as [x'|] eqn:H0; [|discriminate].
  destruct (component v 1) as [y'|] eqn:H1; [|discriminate].
  destruct (component v 2) as [z'|] eqn:H2; [|discriminate].
  injection H as -> -> ->. repeat split. intros ->. discriminate.
Qed.

Lemma validTriplet_triple (v : string) :
  validTriplet v = true -> is_Some (triple v).
Proof.
  intros (_ & a & b & c & x & y & z & Hsplit & Ha & Hb & Hc)%validTriplet_pieces.
  exists (x, y, z). unfold triple, component, versionParts. rewrite Hsplit.
  cbn [map lookup list_lookup]. by rewrite Ha, Hb, Hc.
Qed.

Lemma isNewerVersion_triple (a b : string) (ta tb : Z * Z * Z) :
  triple a = Some ta -> triple b = Some tb ->
  isNewerVersion a b = true <-> tripleLt tb ta.
Proof.
  destruct ta as [[x0 x1] x2], tb as [[y0 y1] y2].
  intros (Ha0 & Ha1 & Ha2 & Ha)%triple_components
         (Hb0 & Hb1 & Hb2 & Hb)%triple_components.
  rewrite isNewerVersion_true. cbn [tripleLt]. split.
  - intros (_ & _ & i & Hi & (x & y & Hx & Hy & Hlt) & Hbefore).
    destruct i as [|[|[|i]]]; [| | |lia].
    + left. congruence.
    + right. split; [symmetry; apply (Hbefore 0%nat); [lia|done..]|].
      left. congruence.
    + right. split; [symmetry; apply (Hbefore 0%nat); [lia|done..]|].
      right. split; [symmetry; apply (Hbefore 1%nat); [lia|done..]|].
      congruence.
  - intros H. split; [exact Ha|]. split; [exact Hb|].
    destruct H as [H|[-> [H|[-> H]]]].
    + exists 0%nat. split; [lia|]. split; [by exists x0, y0|]. intros j Hj. lia.
    + exists 1%nat. split; [lia|]. split; [by exists x1, y1|].
      intros [|j] Hj x y Hx Hy; [congruence | lia].
    + exists 2%nat. split; [lia|]. split; [by exists x2, y2|].
      intros [|[|j]] Hj x y Hx Hy; [congruence | congruence | lia].
Qed.

(** X21.  On two versions whose first three pieces read as numbers, in
    particular on dotted triplets, [isNewerVersion remote local] holds
    exactly when the triple of doubles of the local version comes before
    that of the remote one in the lexicographic order; and neither
    version is newer than the other exactly when the two triples are
    equal, so that ["1.0.05"] and ["1.0.5"] are the same version, and so
    are ["1.0.9007199254740993"] and ["1.0.9007199254740992"], which
    read as the same doubles. *)
Theorem isNewerVersion_is_lexicographic (a b : string) (ta tb : Z * Z * Z) :
  triple a = Some ta -> triple b = Some tb ->
  (isNewerVersion a b = true <-> tripleLt tb ta) /\
  (isNewerVersion a b = false /\ isNewerVersion b a = false <-> ta = tb) /\
  (forall v, validTriplet v = true -> is_Some (triple v)) /\
  triple "1.0.9007199254740993" = triple "1.0.9007199254740992".
Proof.
  intros Ha Hb.
  pose proof (isNewerVersion_triple a b ta tb Ha Hb) as Hab.
  pose proof (isNewerVersion_triple b a tb ta Hb Ha) as Hba.
  split; [exact Hab|].
  split; [|split; [exact validTriplet_triple | by vm_compute]].
  destruct ta as [[x0 x1] x2], tb as [[y0 y1] y2]. cbn [tripleLt] in *.
  destruct (isNewerVersion a b), (isNewerVersion b a); split;
    try (intros [? ?]; discriminate).
  - intros [= -> -> ->]. destruct Hab as [Hab _]. specialize (Hab eq_refl). lia.
  - intros [= -> -> ->]. destruct Hab as [Hab _]. specialize (Hab eq_refl). lia.
  - intros [= -> -> ->]. destruct Hba as [Hba _]. specialize (Hba eq_refl). lia.
  - intros _.
    assert (Hnab : ~ (y0 < x0 \/ y0 = x0 /\ (y1 < x1 \/ y1 = x1 /\ y2 < x2)))
      by (intros H; apply Hab in H; discriminate).
    assert (Hnba : ~ (x0 < y0 \/ x0 = y0 /\ (x1 < y1 \/ x1 = y1 /\ x2 < y2)))
      by (intros H; apply Hba in H; discriminate).
    assert (x0 = y0) by lia. assert (x1 = y1) by lia. assert (x2 = y2) by lia.
    congruence.
  - by intros _.
Qed.

Lemma isNewerVersion_is_lexicographic_witness :
  triple "1.0.05" = Some (1 * Js.one, 0 * Js.one, 5 * Js.one) /\
  triple "1.0.5" = Some (1 * Js.one, 0 * Js.one, 5 * Js.one) /\
  isNewerVersion "1.0.05" "1.0.5" = false /\
  isNewerVersion "1.0.5" "1.0.05" = false.
Proof.
  split; [by vm_compute|]. split; [by vm_compute|].
  apply (isNewerVersion_is_lexicographic "1.0.05" "1.0.5"
           (1 * Js.one, 0 * Js.one, 5 * Js.one)
           (1 * Js.one, 0 * Js.one, 5 * Js.one));
    by vm_compute.
Defined.

(** X22.  On versions whose first three pieces read as numbers
    [isNewerVersion] is transitive.  Without that condition it is not:
    ["1.x.5"] is newer than ["1.9.3"], which is newer than ["1.8.7"], yet
    ["1.x.5"] is not newer than ["1.8.7"]. *)
Theorem isNewerVersion_transitive (a b c : string) :
  is_Some (triple a) -> is_Some (triple b) -> is_Some (triple c) ->
  isNewerVersion a b = true -> isNewerVersion b c = true ->
  isNewerVersion a c = true.
Proof.
  intros [[[x0 x1] x2] Ha] [[[y0 y1] y2] Hb] [[[z0 z1] z2] Hc] Hab Hbc.
  apply (isNewerVersion_triple _ _ _ _ Ha Hb) in Hab.
  apply (isNewerVersion_triple _ _ _ _ Hb Hc) in Hbc.
  apply (isNewerVersion_triple _ _ _ _ Ha Hc).
  cbn [tripleLt] in *. lia.
Qed.

Lemma isNewerVersion_transitive_witness :
  is_Some (triple "2.0.0") /\ is_Some (triple "1.9.3") /\
  is_Some (triple "1.8.7") /\
  isNewerVersion "2.0.0" "1.8.7" = true.
Proof.
  split; [by eexists|]. split; [by eexists|]. split; [by eexists|].
  apply (isNewerVersion_transitive "2.0.0" "1.9.3" "1.8.7");
    first [by eexists | reflexivity].
Defined.

Example isNewerVersion_not_transitive_on_malformed :
  isNewerVersion "1.x.5" "1.9.3" = true /\
  isNewerVersion "1.9.3" "1.8.7" = true /\
  isNewerVersion "1.x.5" "1.8.7" = false.
Proof. repeat split; reflexivity. Qed.

(** ** The records stay in place *)

#[global] Instance maintains_preorder (P : World -> Prop) : PreOrder (maintains P).
Proof.
  split.
  - by intros w H.
  - intros w1 w2 w3 H1 H2 H. by apply H2, H1.
Qed.

Lemma sameItem_present key w w' : sameItem key w w' -> maintains (present key) w w'.
Proof. unfold sameItem, maintains, present. by intros ->. Qed.

Lemma isNewerVersion_nonempty (remote local : string) :
  isNewerVersion remote local = true -> Js.falsy remote = false.
Proof. unfold isNewerVersion. by destruct (Js.falsy remote). Qed.

Section Present.
Variable env : Env.
Variable key : string.
Hypothesis not_app : AssetsUpdater.APP_VERSION_KEY <> key.

Lemma insert_present (k v : string) (w : World) (m : gmap string string) :
  Js.falsy v = false ->
  (missing (storage w !! key) = false -> missing (m !! key) = false) ->
  missing (storage w !! key) = false ->
  missing (<[k := v]> m !! key) = false.
Proof.
  intros Hv Hm Hw. destruct (decide (k = key)) as [->|Hne].
  - by rewrite lookup_insert_eq.
  - rewrite lookup_insert_ne by done. by apply Hm.
Qed.

Lemma setItem_present (k v : string) :
  Js.falsy v = false ->
  preserves (maintains (present key)) (localStorage.setItem k v).
Proof.
  intros Hv w Hp. unfold present in *. unfold localStorage.setItem.
  cbn [snd storage]. by apply (insert_present k v w).
Qed.

Ltac present_leaf :=
  intros ?; exec; repeat case_match; by intros ?.

Lemma checkForUpdates_present :
  preserves (maintains (present key)) (Updater.checkForUpdates env).
Proof.
  pose proof (setItem_present (Updater.versionKey "apk") _ (baseline_nonempty env)).
  pose proof (fun t => setItem_present (Updater.versionKey t) _
                         (baseline_nonempty env)) as Hset.
  unfold Updater.checkForUpdates, Updater.checkForNewVersion,
    Updater.promptForUpdate, Updater.getLocalVersion, Updater.narrow.
  walk ltac:(first [apply Hset | present_leaf]).
Qed.

Lemma applier_present info :
  preserves (maintains (present key)) (applier env info).
Proof.
  intros w. apply sameItem_present. unfold applier.
  destruct (String.eqb (updateType info) "apk").
  - destruct (apk_performUpdate_sameRecords env info w) as [H _].
    unfold sameItem. by rewrite H.
  - by apply performUpdate_frame.
Qed.

Lemma onUpdateAccepted_present info :
  Js.falsy (version info) = false ->
  preserves (maintains (present key)) (Updater.onUpdateAccepted env info).
Proof.
  intros Hversion w Hp.
  destruct (onUpdateAccepted_run env info w) as (w1 & Happlier & ->).
  pose proof (applier_present info w) as H1. rewrite Happlier in H1.
  unfold present in *. cbn [snd storage].
  apply (insert_present _ _ w1 _ Hversion); [done|]. by apply H1.
Qed.

Lemma launchInstaller_present uri info :
  preserves (maintains (present key)) (ApkUpdater.launchInstaller env uri info).
Proof.
  intros w. apply sameItem_present.
  destruct (launchInstaller_sameRecords env uri info w) as [H _].
  unfold sameItem. by rewrite H.
Qed.

End Present.

Lemma forallb_without {A : Type} (f : A -> bool) (l : list A) (i : nat) :
  forallb f l = true -> forallb f (take i l ++ drop (S i) l) = true.
Proof.
  revert i. induction l as [|x l IH]; intros i H.
  - by rewrite take_nil, drop_nil.
  - cbn [forallb] in H. apply andb_true_iff in H as [Hx Hl].
    destruct i as [|i]; [exact Hl|].
    cbn [take drop app forallb]. by rewrite Hx, IH.
Qed.

Lemma soundOffers_close i w : soundOffers w -> soundOffers (close i w).
Proof. unfold soundOffers, close. cbn [dialogs]. apply forallb_without. Qed.

Ltac offers_leaf :=
  intros ?; exec; repeat case_match; unfold maintains, soundOffers;
  cbn [snd dialogs]; intros Hoffers;
  first [ assumption | reflexivity | rewrite forallb_app, Hoffers; reflexivity ].

Section Offers.
Variable env : Env.

Lemma checkForUpdates_offers :
  preserves (maintains soundOffers) (Updater.checkForUpdates env).
Proof.
  intros w Hoffers. destruct (isAndroidApp env) eqn:Handroid.
  - destruct (checkForUpdates_outcome env w Handroid)
      as (w' & -> & _ & _ & _ & Hdialogs).
    unfold soundOffers in *. cbn [snd]. rewrite Hdialogs.
    destruct (updaterService_fetchUpdateInfo env (log w) ≫= firstDescriptor)
      as [d|]; [|exact Hoffers].
    destruct (isNewerVersion _ _) eqn:Hnewer; [|exact Hoffers].
    rewrite forallb_app, Hoffers. unfold offersVersion, consentDialog.
    cbn [forallb onOk onCancel soundHandler andb].
    by rewrite (isNewerVersion_nonempty _ _ Hnewer).
  - unfold Updater.checkForUpdates. by rewrite Handroid.
Qed.

Lemma offerRetryInstallation_offers uri info :
  preserves (maintains soundOffers) (ApkUpdater.offerRetryInstallation uri info).
Proof. unfold ApkUpdater.offerRetryInstallation. walk offers_leaf. Qed.

#[local] Hint Resolve offerRetryInstallation_offers : engine.

Lemma launchInstaller_offers uri info :
  preserves (maintains soundOffers) (ApkUpdater.launchInstaller env uri info).
Proof.
  unfold ApkUpdater.launchInstaller, ApkUpdater.offerRetryInstallation.
  walk offers_leaf.
Qed.

Lemma rollbackUpdate_offers :
  preserves (maintains soundOffers) (AssetsUpdater.rollbackUpdate env).
Proof.
  unfold AssetsUpdater.rollbackUpdate, AssetsUpdater.setLocalVersion.
  walk offers_leaf.
Qed.

#[local] Hint Resolve launchInstaller_offers rollbackUpdate_offers : engine.

Lemma onUpdateAccepted_offers info :
  preserves (maintains soundOffers) (Updater.onUpdateAccepted env info).
Proof.
  unfold Updater.onUpdateAccepted, Updater.updateLocalVersion,
    ApkUpdater.performUpdate, ApkUpdater.fetchArtifact,
    ApkUpdater.offerRetryInstallation,
    AssetsUpdater.performUpdate, AssetsUpdater.downloadUpdate,
    AssetsUpdater.getLocalVersion, AssetsUpdater.applyUpdate,
    AssetsUpdater.setLocalVersion.
  walk offers_leaf.
Qed.

Lemma runHandler_recordsPresent h :
  soundHandler h = true ->
  preserves (maintains recordsPresent) (runHandler env h).
Proof.
  intros Hsound w (Hapk & Hassets & Hoffers).
  assert (Hne1 : AssetsUpdater.APP_VERSION_KEY <> Updater.VERSION_KEYS_apk)
    by discriminate.
  assert (Hne2 : AssetsUpdater.APP_VERSION_KEY <> Updater.VERSION_KEYS_assets)
    by discriminate.
  destruct h as [[info| | |uri info|uri info]|]; cbn [runHandler].
  - cbn [soundHandler] in Hsound. apply negb_true_iff in Hsound.
    split; [by apply onUpdateAccepted_present|].
    split; [by apply onUpdateAccepted_present | by apply onUpdateAccepted_offers].
  - by repeat split.
  - by repeat split.
  - repeat split; try assumption. unfold soundOffers in *. cbn.
    by rewrite forallb_app, Hoffers.
  - split; [by apply launchInstaller_present|].
    split; [by apply launchInstaller_present | by apply launchInstaller_offers].
  - by repeat split.
Qed.

Lemma soundOffers_lookup w i d :
  soundOffers w -> dialogs w !! i = Some d -> offersVersion d = true.
Proof.
  unfold soundOffers. intros Hoffers Hd.
  apply list_elem_of_lookup_2, list_elem_of_In in Hd.
  by apply (proj1 (forallb_forall _ _) Hoffers).
Qed.

Lemma step_recordsPresent w ev : recordsPresent w -> recordsPresent (step env w ev).
Proof.
  intros Hw. pose proof Hw as (Hapk & Hassets & Hoffers).
  assert (Hclose : forall i, recordsPresent (close i w))
    by (intros i; repeat split; try assumption; by apply soundOffers_close).
  destruct ev as [i|i|i]; cbn [step].
  - destruct (intervals w !! i); [|exact Hw].
    split; [by apply checkForUpdates_present|].
    split; [by apply checkForUpdates_present|].
    by apply checkForUpdates_offers.
  - destruct (dialogs w !! i) as [d|] eqn:Hd; [|exact Hw].
    apply runHandler_recordsPresent; [|apply Hclose].
    pose proof (soundOffers_lookup w i d Hoffers Hd) as Hsound.
    unfold offersVersion in Hsound. by apply andb_true_iff in Hsound as [? _].
  - destruct (dialogs w !! i) as [d|] eqn:Hd; [|exact Hw].
    destruct (cancel d); [|exact Hw].
    apply runHandler_recordsPresent; [|apply Hclose].
    pose proof (soundOffers_lookup w i d Hoffers Hd) as Hsound.
    unfold offersVersion in Hsound. by apply andb_true_iff in Hsound as [_ ?].
Qed.

Lemma run_recordsPresent w evs : recordsPresent w -> recordsPresent (run env w evs).
Proof.
  unfold run. revert w. induction evs as [|ev evs IH]; intros w Hw;
    cbn [fold_left]; [exact Hw|].
  by apply IH, step_recordsPresent.
Qed.

Lemma initialize_recordsPresent w :
  isAndroidApp env = true -> soundOffers w ->
  recordsPresent (Updater.initialize env w).2.
Proof.
  intros Handroid Hoffers.
  destruct (initializeVersions_spec env w) as (_ & Hapk & Hassets & _).
  destruct (initializeVersions_run env w) as (w1 & Hrun & Hdialogs & _).
  rewrite Hrun in Hapk, Hassets. cbn [snd] in Hapk, Hassets.
  assert (Hw1 : recordsPresent (record ENotifyAppReady w1)).
  { repeat split; try assumption. unfold soundOffers, record. cbn [dialogs].
    by rewrite Hdialogs. }
  unfold Updater.initialize. rewrite Handroid. cbn [negb].
  rewrite bind_unfold, Hrun, bind_unfold. unfold call, succeeds.
  destruct (CapacitorUpdater_notifyAppReady env (log w1)); [|exact Hw1].
  rewrite bind_unfold.
  destruct Hw1 as (H1 & H2 & H3).
  assert (Hcheck : recordsPresent
            (Updater.checkForUpdates env (record ENotifyAppReady w1)).2).
  { split; [by apply checkForUpdates_present|].
    split; [by apply checkForUpdates_present|].
    by apply checkForUpdates_offers. }
  destruct (Updater.checkForUpdates env (record ENotifyAppReady w1))
    as [[[]|e] w2]; exact Hcheck.
Qed.

End Offers.

(** X23.  Once both tracks have a non-empty record and no dialog on
    screen would record an empty version, this stays so through every
    sequence of interval firings and clicks, whatever the collaborators
    answer: a version record is never emptied.  On Android [initialize]
    brings this state about, whether or not it throws. *)
Theorem records_stay_present env w evs :
  (recordsPresent w -> recordsPresent (run env w evs)) /\
  (isAndroidApp env = true -> soundOffers w ->
   recordsPresent (run env (Updater.initialize env w).2 evs)).
Proof.
  split; [apply run_recordsPresent|].
  intros Handroid Hoffers. by apply run_recordsPresent, initialize_recordsPresent.
Qed.

Lemma records_stay_present_witness :
  isAndroidApp activationFails = true /\ soundOffers (start ∅) /\
  recordsPresent
    (run activationFails (Updater.initialize activationFails (start ∅)).2
       [ClickOk 0; TimerTick 0; ClickOk 1]).
Proof.
  split; [reflexivity|]. split; [reflexivity|].
  by apply (records_stay_present activationFails (start ∅)).
Defined.
